(** * Tracing decorator for the controller-runtime client, and trace annotations

    A shallow embedding of

    - [util/tracing/runtime_client.go]: [tracingClient] and
      [tracingStatusWriter], which wrap every call of a controller-runtime
      client in an OpenTracing span;
    - [AddTraceAnnotation], which stamps a span's context into the annotations
      of a slice of [unstructured.Unstructured];
    - [cmd/clusterctl/cmd/move.go]: [runMove].

    Go code that mutates state is written in a state monad over the state it
    touches: the tracer's spans, the wrapped client's world, the heap of
    object maps. *)

From stdpp Require Import gmap strings list fin_maps.

Set Warnings "-register-all".
Open Scope string_scope.
Open Scope list_scope.

(** ** A state monad for the stateful Go code *)

Definition M (S A : Type) : Type := S → A * S.

Definition ret {S A} (a : A) : M S A := λ s, (a, s).

Definition bind {S A B} (m : M S A) (k : A → M S B) : M S B :=
  λ s, let '(a, s') := m s in k a s'.

Definition gets {S A} (f : S → A) : M S A := λ s, (f s, s).

Definition modify {S} (f : S → S) : M S unit := λ s, (tt, f s).

Declare Scope go_scope.
Delimit Scope go_scope with go.
Notation "'let*' x ':=' m 'in' k" := (bind m (λ x, k))
  (at level 10, x pattern, m at level 100, k at level 200) : go_scope.
Notation "m ';;' k" := (bind m (λ _, k))
  (at level 100, k at level 200, right associativity) : go_scope.

(** [defer fin] around a body: the deferred call runs after the body's return
    value has been computed, and the value is returned as computed (none of the
    functions here has a named result a deferred call could change). *)
Definition defer {S A} (fin : M S unit) (body : M S A) : M S A :=
  (let* r := body in fin ;; ret r)%go.

(** [for _, x := range xs { body x }] *)
Fixpoint forRange {S A} (xs : list A) (body : A → M S unit) : M S unit :=
  match xs with
  | [] => ret tt
  | x :: xs' => (body x ;; forRange xs' body)%go
  end.

(** ** Go's [error]

    An error value is identified by its message; [None : option error] is the
    nil error. *)
Inductive error := errorString (msg : string).

Definition Error (e : error) : string := let 'errorString m := e in m.

Module errors.
Definition New (msg : string) : error := errorString msg.
End errors.

(** ** k8s.io/apimachinery: kinds and names *)

Module schema.
Record GroupVersionKind := {
  Group : string;
  Version : string;
  Kind : string;
}.

Definition Empty (gvk : GroupVersionKind) : bool :=
  bool_decide (String.length (Group gvk) = 0)
  && bool_decide (String.length (Version gvk) = 0)
  && bool_decide (String.length (Kind gvk) = 0).

Definition String (gvk : GroupVersionKind) : string :=
  Group gvk +:+ "/" +:+ Version gvk +:+ ", Kind=" +:+ Kind gvk.
End schema.

Module types.
Record NamespacedName := {
  Namespace : string;
  Name : string;
}.

Definition Separator : string := "/".

Definition String (n : NamespacedName) : string :=
  Namespace n +:+ Separator +:+ Name n.
End types.

(** ** k8s.io/apimachinery: [unstructured.Unstructured]

    [Unstructured] is a struct with one field, [Object map[string]interface{}].
    A Go map is a reference: copying the struct copies the reference, and a nil
    map is a reference to nothing. The top-level maps live in a heap, so that a
    copy of an [Unstructured] aliases the original's map. The maps nested below
    the top level are held by value: decoded objects are trees. The model
    therefore speaks of objects that share no nested map with one another; what
    a write through one object does to another object holding the same
    [metadata] map is outside it. *)
Module unstructured.

Inductive Value :=
| VString (s : string)
| VMap (m : gmap string Value)
| VOther (repr : string).

Definition Loc := positive.

Record Unstructured := { Object : option Loc }.

(** Outcome of a nested lookup: the Go functions return
    [(value, found, err)]. *)
Inductive Nested (A : Type) :=
| Found (a : A)
| NotFound
| NestedErr.
Arguments Found {A} a.
Arguments NotFound {A}.
Arguments NestedErr {A}.

Fixpoint NestedFieldNoCopy (val : Value) (fields : list string) : Nested Value :=
  match fields with
  | [] => Found val
  | field :: rest =>
      match val with
      | VMap m =>
          match m !! field with
          | Some v => NestedFieldNoCopy v rest
          | None => NotFound
          end
      | _ => NestedErr
      end
  end.

Definition nestedMapNoCopy (obj : gmap string Value) (fields : list string)
  : Nested (gmap string Value) :=
  match NestedFieldNoCopy (VMap obj) fields with
  | Found (VMap m) => Found m
  | Found _ => NestedErr
  | NotFound => NotFound
  | NestedErr => NestedErr
  end.

Definition asString (v : Value) : option string :=
  match v with VString s => Some s | _ => None end.

(** [NestedStringMap] copies the nested map into a fresh
    [map[string]string]; one value that is not a string makes it an error. *)
Definition NestedStringMap (obj : gmap string Value) (fields : list string)
  : Nested (gmap string string) :=
  match nestedMapNoCopy obj fields with
  | Found m =>
      if bool_decide (map_Forall (λ _ v, is_Some (asString v)) m)
      then Found (omap asString m)
      else NestedErr
  | NotFound => NotFound
  | NestedErr => NestedErr
  end.

(** [SetNestedField]: walks the path, creating the maps that are missing;
    fails, leaving the object as it was, when the path runs into a value
    that is not a map. [None] is the error. *)
Fixpoint SetNestedField (m : gmap string Value) (value : Value)
    (field : string) (rest : list string) : option (gmap string Value) :=
  match rest with
  | [] => Some (<[field := value]> m)
  | field' :: rest' =>
      match m !! field with
      | Some (VMap sub) =>
          match SetNestedField sub value field' rest' with
          | Some sub' => Some (<[field := VMap sub']> m)
          | None => None
          end
      | Some _ => None
      | None =>
          match SetNestedField ∅ value field' rest' with
          | Some sub' => Some (<[field := VMap sub']> m)
          | None => None
          end
      end
  end.

Definition SetNestedStringMap (obj : gmap string Value)
    (value : gmap string string) (field : string) (rest : list string)
  : option (gmap string Value) :=
  SetNestedField obj (VMap (VString <$> value)) field rest.

Fixpoint RemoveNestedField (m : gmap string Value) (field : string)
    (rest : list string) : gmap string Value :=
  match rest with
  | [] => delete field m
  | field' :: rest' =>
      match m !! field with
      | Some (VMap sub) => <[field := VMap (RemoveNestedField sub field' rest')]> m
      | _ => m
      end
  end.

(** The heap of top-level object maps. *)
Abbreviation Heap := (gmap Loc (gmap string Value)).

(** [u.Object] as a map value: a nil map reads as the empty map. *)
Definition deref (h : Heap) (u : Unstructured) : gmap string Value :=
  match Object u with
  | Some l => default ∅ (h !! l)
  | None => ∅
  end.

(** [func (u *Unstructured) GetAnnotations() map[string]string]; [None] is
    the nil map. *)
Definition GetAnnotations (u : Unstructured) (h : Heap)
  : option (gmap string string) :=
  match NestedStringMap (deref h u) ["metadata"; "annotations"] with
  | Found m => Some m
  | _ => None
  end.

(** [func (u *Unstructured) setNestedMap]: allocates [u.Object] when it is
    nil, which changes the receiver, then sets the field; the error of
    [SetNestedStringMap] is dropped. Returns the receiver as it is after the
    call. *)
Definition setNestedMap (u : Unstructured) (value : gmap string string)
    (field : string) (rest : list string) : M Heap Unstructured :=
  λ h,
    let '(l, h) :=
      match Object u with
      | Some l => (l, h)
      | None => let l := fresh (dom h) in (l, <[l := ∅]> h)
      end in
    let obj := default ∅ (h !! l) in
    let h :=
      match SetNestedStringMap obj value field rest with
      | Some obj' => <[l := obj']> h
      | None => h
      end in
    ({| Object := Some l |}, h).

(** [func (u *Unstructured) SetAnnotations(annotations map[string]string)] *)
Definition SetAnnotations (u : Unstructured)
    (annotations : option (gmap string string)) : M Heap Unstructured :=
  match annotations with
  | None =>
      λ h,
        match Object u with
        | Some l =>
            (u, <[l := RemoveNestedField (default ∅ (h !! l))
                         "metadata" ["annotations"]]> h)
        | None => (u, h)
        end
  | Some a => setNestedMap u a "metadata" ["annotations"]
  end.

End unstructured.

(** ** k8s.io/apimachinery: [runtime.Object], [runtime.Scheme], [meta.Accessor]

    [runtime.Object] is an interface. An object is modelled by what the code
    here can observe of it: its Go type (which the scheme keys on), the kind it
    declares, the object metadata [meta.Accessor] finds (or fails to find), and
    the rest of its content. *)
Module runtime.
Record ObjectMeta := {
  GetNamespace : string;
  GetName : string;
}.

Record Object := {
  goType : string;
  GroupVersionKind : schema.GroupVersionKind;
  objectMeta : option ObjectMeta;
  content : string;
}.

(** [func (s *Scheme) ObjectKinds(obj Object) ([]schema.GroupVersionKind, bool, error)] *)
Record Scheme := {
  ObjectKinds : Object → list schema.GroupVersionKind * bool * option error;
}.
End runtime.

Module meta.
Definition errNotObject : error := errors.New "object does not implement the Object interfaces".

Definition Accessor (obj : runtime.Object) : runtime.ObjectMeta + error :=
  match runtime.objectMeta obj with
  | Some m => inl m
  | None => inr errNotObject
  end.
End meta.

(** ** opentracing-go

    The tracer keeps every span it started, in the order they were started; a
    span handle is the span's position. The tags of a span are a mapping from
    key to value: [Tags] holds at most one tag per key, and setting a tag
    whose key the span already has replaces the earlier one, as the [Span]
    interface has it ("if there is a pre-existing tag set for key, it is
    overwritten"). [Logs] holds one entry per [LogFields] call. [finished]
    lists the spans on which [Finish] was called, one entry per call. *)
Module ot.
Inductive TagValue :=
| TString (s : string)
| TBool (b : bool).

Record Tag := { Key : string; Value : TagValue }.

Definition Span := nat.

Record SpanData := {
  OperationName : string;
  ParentID : option Span;
  Tags : list Tag;
  Logs : list (list (string * TagValue + error));
}.

Record Tracer := {
  spans : list SpanData;
  finished : list Span;
}.

(** [context.Context]: the active span, and whatever else the caller put in
    it (deadline, cancellation, values). *)
Record Context := {
  activeSpan : option Span;
  carried : string;
}.

Definition ContextWithSpan (ctx : Context) (sp : Span) : Context :=
  {| activeSpan := Some sp; carried := carried ctx |}.

(** [tags[key] = value] *)
Definition setTag (tags : list Tag) (key : string) (value : TagValue) : list Tag :=
  filter (λ t, Key t ≠ key) tags ++ [{| Key := key; Value := value |}].

Definition StartSpanFromContext (ctx : Context) (operationName : string)
    (opts : list Tag) : M Tracer (Span * Context) :=
  λ t,
    let sp := length (spans t) in
    let data := {| OperationName := operationName;
                   ParentID := activeSpan ctx;
                   Tags := foldl (λ tags t, setTag tags (Key t) (Value t)) [] opts;
                   Logs := [] |} in
    ((sp, ContextWithSpan ctx sp),
     {| spans := spans t ++ [data]; finished := finished t |}).

Definition onSpan (sp : Span) (f : SpanData → SpanData) : M Tracer unit :=
  modify (λ t, {| spans := alter f sp (spans t); finished := finished t |}).

Definition SetTag (sp : Span) (key : string) (value : TagValue) : M Tracer unit :=
  onSpan sp (λ d, {| OperationName := OperationName d;
                     ParentID := ParentID d;
                     Tags := setTag (Tags d) key value;
                     Logs := Logs d |}).

Definition LogFields (sp : Span) (fields : list (string * TagValue + error))
  : M Tracer unit :=
  onSpan sp (λ d, {| OperationName := OperationName d;
                     ParentID := ParentID d;
                     Tags := Tags d;
                     Logs := Logs d ++ [fields] |}).

Definition Finish (sp : Span) : M Tracer unit :=
  modify (λ t, {| spans := spans t; finished := finished t ++ [sp] |}).

Global Arguments StartSpanFromContext : simpl never.
Global Arguments onSpan : simpl never.
Global Arguments SetTag : simpl never.
Global Arguments LogFields : simpl never.
Global Arguments Finish : simpl never.
End ot.

(** [opentracing-go/log]: the two field constructors the code uses. *)
Module otlog.
Definition String (key val : string) : string * ot.TagValue + error :=
  inl (key, ot.TString val).
Definition Error (err : error) : string * ot.TagValue + error := inr err.
End otlog.

(** [opentracing-go/ext]: [ext.Error.Set(span, b)] is [span.SetTag("error", b)]. *)
Module ext.
Definition Error_Set (sp : ot.Span) (b : bool) : M ot.Tracer unit :=
  ot.SetTag sp "error" (ot.TBool b).
End ext.

(** ** controller-runtime: the client interfaces

    [W] is the state the wrapped client works on (the cluster, its cache, the
    network). Every call takes the object by reference and may fill it in, so
    a call returns the object as the callee left it together with the error. *)
Module client.

Abbreviation ObjectKey := types.NamespacedName.

(** Variadic options ([ListOption], [CreateOption], ...) are passed through
    as they come. *)
Definition CallOptions := list string.

(** [client.Patch]: an interface with [Type()] and [Data(obj)]. *)
Record Patch := {
  PatchType : string;
  Data : runtime.Object → string + error;
}.

Definition Result : Type := runtime.Object * option error.

Module StatusWriter.
Record t (W : Type) := {
  Update : ot.Context → runtime.Object → CallOptions → M W Result;
  Patch : ot.Context → runtime.Object → client.Patch → CallOptions → M W Result;
}.
Arguments Update {W} _ _ _ _.
Arguments Patch {W} _ _ _ _ _.
End StatusWriter.

Module Reader.
Record t (W : Type) := {
  Get : ot.Context → ObjectKey → runtime.Object → M W Result;
  List : ot.Context → runtime.Object → CallOptions → M W Result;
}.
Arguments Get {W} _ _ _ _.
Arguments List {W} _ _ _ _.
End Reader.

Module Client.
Record t (W : Type) := {
  Get : ot.Context → ObjectKey → runtime.Object → M W Result;
  List : ot.Context → runtime.Object → CallOptions → M W Result;
  Create : ot.Context → runtime.Object → CallOptions → M W Result;
  Delete : ot.Context → runtime.Object → CallOptions → M W Result;
  Update : ot.Context → runtime.Object → CallOptions → M W Result;
  Patch : ot.Context → runtime.Object → client.Patch → CallOptions → M W Result;
  DeleteAllOf : ot.Context → runtime.Object → CallOptions → M W Result;
  Status : StatusWriter.t W;
}.
Arguments Get {W} _ _ _ _.
Arguments List {W} _ _ _ _.
Arguments Create {W} _ _ _ _.
Arguments Delete {W} _ _ _ _.
Arguments Update {W} _ _ _ _.
Arguments Patch {W} _ _ _ _ _.
Arguments DeleteAllOf {W} _ _ _ _.
Arguments Status {W} _.
End Client.

(** [client.Options] *)
Record Options := { Scheme : option runtime.Scheme }.

(** [client.DelegatingReader]: unstructured objects are read from the API
    server, everything else from the cache. *)
Record DelegatingReader (W : Type) := {
  CacheReader : Reader.t W;
  ClientReader : Client.t W;
}.
Arguments CacheReader {W} _.
Arguments ClientReader {W} _.

Definition DelegatingReader_Get {W} (d : DelegatingReader W)
    (ctx : ot.Context) (key : ObjectKey) (obj : runtime.Object) : M W Result :=
  if bool_decide (runtime.goType obj = "*unstructured.Unstructured")
  then Client.Get (ClientReader d) ctx key obj
  else Reader.Get (CacheReader d) ctx key obj.

Definition DelegatingReader_List {W} (d : DelegatingReader W)
    (ctx : ot.Context) (list : runtime.Object) (opts : CallOptions) : M W Result :=
  if bool_decide (runtime.goType list = "*unstructured.UnstructuredList")
  then Client.List (ClientReader d) ctx list opts
  else Reader.List (CacheReader d) ctx list opts.

(** [client.DelegatingClient]: a struct of three embedded interfaces. *)
Record DelegatingClient (W : Type) := {
  Reader_ : DelegatingReader W;
  Writer : Client.t W;
  StatusClient : Client.t W;
}.
Arguments Reader_ {W} _.
Arguments Writer {W} _.
Arguments StatusClient {W} _.

(** The method set of [*DelegatingClient], as a [client.Client]. *)
Definition DelegatingClient_Client {W} (d : DelegatingClient W) : Client.t W :=
  {| Client.Get := DelegatingReader_Get (Reader_ d);
     Client.List := DelegatingReader_List (Reader_ d);
     Client.Create := Client.Create (Writer d);
     Client.Delete := Client.Delete (Writer d);
     Client.Update := Client.Update (Writer d);
     Client.Patch := Client.Patch (Writer d);
     Client.DeleteAllOf := Client.DeleteAllOf (Writer d);
     Client.Status := Client.Status (StatusClient d) |}.

End client.

(** ** Package [tracing] *)
Module tracing.

(** *** runtime_client.go *)
Section RuntimeClient.
Context {W : Type}.

(** The tracer and the wrapped client's world side by side. *)
Record State := { tracer : ot.Tracer; world : W }.

Definition onTracer {A} (m : M ot.Tracer A) : M State A :=
  λ s, let '(a, t) := m (tracer s) in (a, {| tracer := t; world := world s |}).

Definition onWorld {A} (m : M W A) : M State A :=
  λ s, let '(a, w) := m (world s) in (a, {| tracer := tracer s; world := w |}).

(** [sigs.k8s.io/controller-runtime/pkg/client.New] and the types of its
    arguments, which the package only passes on. *)
Definition Config := string.
Variable client_New : Config → client.Options → client.Client.t W + error.

Record tracingClient := {
  Client : client.Client.t W;
  scheme : option runtime.Scheme;
}.

Definition NewRuntimeClient (cache : client.Reader.t W) (config : Config)
    (options : client.Options) : tracingClient + error :=
  match client_New config options with
  | inr err => inr err
  | inl c =>
      let delegatingClient :=
        {| client.Reader_ := {| client.CacheReader := cache;
                                client.ClientReader := c |};
           client.Writer := c;
           client.StatusClient := c |} in
      inl {| Client := client.DelegatingClient_Client delegatingClient;
             scheme := client.Scheme options |}
  end.

(** [manager.NewClientFunc] *)
Definition NewClientFunc (C : Type) : Type :=
  client.Reader.t W → Config → client.Options → C + error.

Definition WrapRuntimeClient (upstreamNew : NewClientFunc (client.Client.t W))
  : NewClientFunc tracingClient :=
  λ cache config options,
    match upstreamNew cache config options with
    | inr err => inr err
    | inl delegatingClient =>
        inl {| Client := delegatingClient; scheme := client.Scheme options |}
    end.

Definition setObjectTags (sp : ot.Span) (obj : runtime.Object) : M ot.Tracer unit :=
  (let gvk := runtime.GroupVersionKind obj in
   (if negb (schema.Empty gvk)
    then ot.SetTag sp "objectKind" (ot.TString (schema.String gvk))
    else ret tt) ;;
   match meta.Accessor obj with
   | inl m =>
       ot.SetTag sp "objectKey"
         (ot.TString (runtime.GetNamespace m +:+ "/" +:+ runtime.GetName m))
   | inr _ => ret tt
   end)%go.

Definition traceError (sp : ot.Span) (err : option error)
  : M ot.Tracer (option error) :=
  (match err with
   | Some e => ext.Error_Set sp true ;; ot.LogFields sp [otlog.Error e]
   | None => ret tt
   end ;;
   ret err)%go.

Definition setBlankObjectTags (c : tracingClient) (sp : ot.Span)
    (obj : runtime.Object) : M ot.Tracer unit :=
  match scheme c with
  | Some s =>
      let '(gvks, _, _) := runtime.ObjectKinds s obj in
      forRange gvks (λ gvk,
        ot.SetTag sp "objectKind" (ot.TString (schema.String gvk)))
  | None => ret tt
  end.

(** [return traceError(sp, call)]: the call's error goes through
    [traceError]; the object is the one the callee was handed. *)
Definition traced (sp : ot.Span) (call : M W client.Result) : M State client.Result :=
  (let* (obj, err) := onWorld call in
   let* err := onTracer (traceError sp err) in
   ret (obj, err))%go.

Definition logPatch (sp : ot.Span) (patch : client.Patch)
    (obj : runtime.Object) : M ot.Tracer unit :=
  match client.Data patch obj with
  | inl data => ot.LogFields sp [otlog.String "patch" data]
  | inr _ => ret tt
  end.

Definition tracingClient_Get (c : tracingClient) (ctx : ot.Context)
    (key : client.ObjectKey) (obj : runtime.Object) : M State client.Result :=
  (let* (sp, ctx) :=
     onTracer (ot.StartSpanFromContext ctx "k8s.Get"
                 [{| ot.Key := "objectKey";
                     ot.Value := ot.TString (types.String key) |}]) in
   defer (onTracer (ot.Finish sp))
     (onTracer (setBlankObjectTags c sp obj) ;;
      traced sp (client.Client.Get (Client c) ctx key obj)))%go.

Definition tracingClient_List (c : tracingClient) (ctx : ot.Context)
    (list : runtime.Object) (opts : client.CallOptions) : M State client.Result :=
  (let* (sp, ctx) := onTracer (ot.StartSpanFromContext ctx "k8s.List" []) in
   defer (onTracer (ot.Finish sp))
     (onTracer (setBlankObjectTags c sp list) ;;
      traced sp (client.Client.List (Client c) ctx list opts)))%go.

Definition tracingClient_Create (c : tracingClient) (ctx : ot.Context)
    (obj : runtime.Object) (opts : client.CallOptions) : M State client.Result :=
  (let* (sp, ctx) := onTracer (ot.StartSpanFromContext ctx "k8s.Create" []) in
   defer (onTracer (ot.Finish sp))
     (onTracer (setObjectTags sp obj) ;;
      traced sp (client.Client.Create (Client c) ctx obj opts)))%go.

Definition tracingClient_Delete (c : tracingClient) (ctx : ot.Context)
    (obj : runtime.Object) (opts : client.CallOptions) : M State client.Result :=
  (let* (sp, ctx) := onTracer (ot.StartSpanFromContext ctx "k8s.Delete" []) in
   defer (onTracer (ot.Finish sp))
     (onTracer (setObjectTags sp obj) ;;
      traced sp (client.Client.Delete (Client c) ctx obj opts)))%go.

Definition tracingClient_Update (c : tracingClient) (ctx : ot.Context)
    (obj : runtime.Object) (opts : client.CallOptions) : M State client.Result :=
  (let* (sp, ctx) := onTracer (ot.StartSpanFromContext ctx "k8s.Update" []) in
   defer (onTracer (ot.Finish sp))
     (onTracer (setObjectTags sp obj) ;;
      traced sp (client.Client.Update (Client c) ctx obj opts)))%go.

Definition tracingClient_Patch (c : tracingClient) (ctx : ot.Context)
    (obj : runtime.Object) (patch : client.Patch) (opts : client.CallOptions)
  : M State client.Result :=
  (let* (sp, ctx) := onTracer (ot.StartSpanFromContext ctx "k8s.Patch" []) in
   defer (onTracer (ot.Finish sp))
     (onTracer (setObjectTags sp obj) ;;
      onTracer (logPatch sp patch obj) ;;
      traced sp (client.Client.Patch (Client c) ctx obj patch opts)))%go.

Definition tracingClient_DeleteAllOf (c : tracingClient) (ctx : ot.Context)
    (obj : runtime.Object) (opts : client.CallOptions) : M State client.Result :=
  (let* (sp, ctx) := onTracer (ot.StartSpanFromContext ctx "k8s.DeleteAllOf" []) in
   defer (onTracer (ot.Finish sp))
     (onTracer (setBlankObjectTags c sp obj) ;;
      traced sp (client.Client.DeleteAllOf (Client c) ctx obj opts)))%go.

Record tracingStatusWriter := { StatusWriter : client.StatusWriter.t W }.

Definition tracingClient_Status (c : tracingClient) : tracingStatusWriter :=
  {| StatusWriter := client.Client.Status (Client c) |}.

Definition tracingStatusWriter_Update (s : tracingStatusWriter)
    (ctx : ot.Context) (obj : runtime.Object) (opts : client.CallOptions)
  : M State client.Result :=
  (let* (sp, ctx) := onTracer (ot.StartSpanFromContext ctx "k8s.Status.Update" []) in
   defer (onTracer (ot.Finish sp))
     (onTracer (setObjectTags sp obj) ;;
      traced sp (client.StatusWriter.Update (StatusWriter s) ctx obj opts)))%go.

Definition tracingStatusWriter_Patch (s : tracingStatusWriter)
    (ctx : ot.Context) (obj : runtime.Object) (patch : client.Patch)
    (opts : client.CallOptions) : M State client.Result :=
  (let* (sp, ctx) := onTracer (ot.StartSpanFromContext ctx "k8s.Status.Patch" []) in
   defer (onTracer (ot.Finish sp))
     (onTracer (setObjectTags sp obj) ;;
      onTracer (logPatch sp patch obj) ;;
      traced sp (client.StatusWriter.Patch (StatusWriter s) ctx obj patch opts)))%go.

(** The nine operations as data, to speak about all of them at once:
    [invoke] calls the decorator, [delegate] the client it wraps. *)
Inductive Call :=
| CallGet (key : client.ObjectKey) (obj : runtime.Object)
| CallList (list : runtime.Object) (opts : client.CallOptions)
| CallCreate (obj : runtime.Object) (opts : client.CallOptions)
| CallDelete (obj : runtime.Object) (opts : client.CallOptions)
| CallUpdate (obj : runtime.Object) (opts : client.CallOptions)
| CallPatch (obj : runtime.Object) (patch : client.Patch) (opts : client.CallOptions)
| CallDeleteAllOf (obj : runtime.Object) (opts : client.CallOptions)
| CallStatusUpdate (obj : runtime.Object) (opts : client.CallOptions)
| CallStatusPatch (obj : runtime.Object) (patch : client.Patch) (opts : client.CallOptions).

Definition invoke (c : tracingClient) (ctx : ot.Context) (call : Call)
  : M State client.Result :=
  match call with
  | CallGet key obj => tracingClient_Get c ctx key obj
  | CallList list opts => tracingClient_List c ctx list opts
  | CallCreate obj opts => tracingClient_Create c ctx obj opts
  | CallDelete obj opts => tracingClient_Delete c ctx obj opts
  | CallUpdate obj opts => tracingClient_Update c ctx obj opts
  | CallPatch obj patch opts => tracingClient_Patch c ctx obj patch opts
  | CallDeleteAllOf obj opts => tracingClient_DeleteAllOf c ctx obj opts
  | CallStatusUpdate obj opts =>
      tracingStatusWriter_Update (tracingClient_Status c) ctx obj opts
  | CallStatusPatch obj patch opts =>
      tracingStatusWriter_Patch (tracingClient_Status c) ctx obj patch opts
  end.

Definition delegate (d : client.Client.t W) (ctx : ot.Context) (call : Call)
  : M W client.Result :=
  match call with
  | CallGet key obj => client.Client.Get d ctx key obj
  | CallList list opts => client.Client.List d ctx list opts
  | CallCreate obj opts => client.Client.Create d ctx obj opts
  | CallDelete obj opts => client.Client.Delete d ctx obj opts
  | CallUpdate obj opts => client.Client.Update d ctx obj opts
  | CallPatch obj patch opts => client.Client.Patch d ctx obj patch opts
  | CallDeleteAllOf obj opts => client.Client.DeleteAllOf d ctx obj opts
  | CallStatusUpdate obj opts =>
      client.StatusWriter.Update (client.Client.Status d) ctx obj opts
  | CallStatusPatch obj patch opts =>
      client.StatusWriter.Patch (client.Client.Status d) ctx obj patch opts
  end.

(** The object a call is about. *)
Definition subject (call : Call) : runtime.Object :=
  match call with
  | CallGet _ obj | CallList obj _ | CallCreate obj _ | CallDelete obj _
  | CallUpdate obj _ | CallPatch obj _ _ | CallDeleteAllOf obj _
  | CallStatusUpdate obj _ | CallStatusPatch obj _ _ => obj
  end.

(** The operations that find the kind through the scheme
    ([setBlankObjectTags]). *)
Definition viaScheme (call : Call) : bool :=
  match call with
  | CallGet _ _ | CallList _ _ | CallDeleteAllOf _ _ => true
  | _ => false
  end.

End RuntimeClient.
Arguments State : clear implicits.
Arguments tracingClient : clear implicits.
Arguments tracingStatusWriter : clear implicits.

(** *** AddTraceAnnotation *)
Section Annotation.

(** The rest of the package is not part of this development: the reserved
    annotation key and the encoder of a span's context are taken as they
    come. *)
Variable TraceAnnotationKey : string.
Variable GenerateEmbeddableSpanContext : ot.Span → string + error.

(** The heap of object maps, and a count of the calls to the encoder. *)
Record Mem := { heap : unstructured.Heap; encodeCalls : nat }.

Definition onHeap {A} (m : M unstructured.Heap A) : M Mem A :=
  λ s, let '(a, h) := m (heap s) in
       (a, {| heap := h; encodeCalls := encodeCalls s |}).

Definition encode (span : ot.Span) : M Mem (string + error) :=
  λ s, (GenerateEmbeddableSpanContext span,
        {| heap := heap s; encodeCalls := S (encodeCalls s) |}).

(** The body of the loop. [o] is the loop variable, a copy of the slice
    element: [SetAnnotations] has it as receiver, and what it does to the
    struct itself ends with the iteration. *)
Definition stamp (spanContext : string) (o : unstructured.Unstructured)
  : M unstructured.Heap unit :=
  (let* a := gets (unstructured.GetAnnotations o) in
   let a := match a with
            | None => ∅
            | Some a => a
            end in
   let a := <[TraceAnnotationKey := spanContext]> a in
   let* o := unstructured.SetAnnotations o (Some a) in
   ret tt)%go.

Definition AddTraceAnnotation (objs : list unstructured.Unstructured)
    (span : ot.Span) : M Mem (option error) :=
  (let* r := encode span in
   match r with
   | inr err => ret (Some err)
   | inl spanContext =>
       onHeap (forRange objs (stamp spanContext)) ;;
       ret None
   end)%go.

End Annotation.

End tracing.

(** ** Package [cmd]: [clusterctl move] *)
Module cmd.
Section Move.
Context {W : Type}.

Record moveOptions := {
  fromKubeconfig : string;
  namespace : string;
  toKubeconfig : string;
}.

(** [sigs.k8s.io/cluster-api/cmd/clusterctl/client]: [MoveOptions], the
    client's [Move] and the constructor [New] are taken as they come. *)
Record MoveOptions := {
  FromKubeconfig : string;
  ToKubeconfig : string;
  Namespace : string;
}.

Record Client := { Move : MoveOptions → M W (option error) }.

Variable client_New : string → M W (Client + error).

(** The package variables [runMove] reads. *)
Variable cfgFile : string.
Variable mo : moveOptions.

(** The world of the clusterctl client, and the calls made into the client
    package, oldest first. *)
Inductive ClientCall :=
| CalledNew (path : string)
| CalledMove (options : MoveOptions).

Record State := { world : W; calls : list ClientCall }.

Definition call {A} (what : ClientCall) (m : M W A) : M State A :=
  λ s, let '(a, w) := m (world s) in
       (a, {| world := w; calls := calls s ++ [what] |}).

Definition runMove : M State (option error) :=
  if bool_decide (toKubeconfig mo = "")
  then ret (Some (errors.New
              "please specify a target cluster using the --to-kubeconfig flag"))
  else
    (let* r := call (CalledNew cfgFile) (client_New cfgFile) in
     match r with
     | inr err => ret (Some err)
     | inl c =>
         let options := {| FromKubeconfig := fromKubeconfig mo;
                           ToKubeconfig := toKubeconfig mo;
                           Namespace := namespace mo |} in
         let* err := call (CalledMove options) (Move c options) in
         match err with
         | Some err => ret (Some err)
         | None => ret None
         end
     end)%go.

End Move.
Arguments State : clear implicits.
Arguments Client : clear implicits.
End cmd.

(** * What a call leaves on its span

    The span of a call, written as a function of the call and of the error
    the wrapped client returned. [invoke_spec] below proves that the code
    leaves exactly this span. *)
Module spans.
Import tracing.

Definition add (d : ot.SpanData) (tags : list ot.Tag)
    (logs : list (list (string * ot.TagValue + error))) : ot.SpanData :=
  {| ot.OperationName := ot.OperationName d;
     ot.ParentID := ot.ParentID d;
     ot.Tags := ot.Tags d ++ tags;
     ot.Logs := ot.Logs d ++ logs |}.

Definition kindTag (gvk : schema.GroupVersionKind) : ot.Tag :=
  {| ot.Key := "objectKind"; ot.Value := ot.TString (schema.String gvk) |}.

Definition objectTags (obj : runtime.Object) : list ot.Tag :=
  (if schema.Empty (runtime.GroupVersionKind obj) then []
   else [kindTag (runtime.GroupVersionKind obj)])
  ++ match runtime.objectMeta obj with
     | Some m => [{| ot.Key := "objectKey";
                     ot.Value := ot.TString (runtime.GetNamespace m +:+ "/"
                                             +:+ runtime.GetName m) |}]
     | None => []
     end.

Definition candidates (sch : option runtime.Scheme) (obj : runtime.Object)
  : list schema.GroupVersionKind :=
  match sch with
  | Some s => (runtime.ObjectKinds s obj).1.1
  | None => []
  end.

Definition errorTags (err : option error) : list ot.Tag :=
  match err with
  | Some _ => [{| ot.Key := "error"; ot.Value := ot.TBool true |}]
  | None => []
  end.

Definition errorLogs (err : option error)
  : list (list (string * ot.TagValue + error)) :=
  match err with
  | Some e => [[otlog.Error e]]
  | None => []
  end.

Definition patchLogs (patch : client.Patch) (obj : runtime.Object)
  : list (list (string * ot.TagValue + error)) :=
  match client.Data patch obj with
  | inl data => [[otlog.String "patch" data]]
  | inr _ => []
  end.

Definition operationName (call : Call) : string :=
  match call with
  | CallGet _ _ => "k8s.Get"
  | CallList _ _ => "k8s.List"
  | CallCreate _ _ => "k8s.Create"
  | CallDelete _ _ => "k8s.Delete"
  | CallUpdate _ _ => "k8s.Update"
  | CallPatch _ _ _ => "k8s.Patch"
  | CallDeleteAllOf _ _ => "k8s.DeleteAllOf"
  | CallStatusUpdate _ _ => "k8s.Status.Update"
  | CallStatusPatch _ _ _ => "k8s.Status.Patch"
  end.

Definition startTags (call : Call) : list ot.Tag :=
  match call with
  | CallGet key _ => [{| ot.Key := "objectKey";
                         ot.Value := ot.TString (types.String key) |}]
  | _ => []
  end.

(** Every candidate is set under the one key [objectKind]: the last stays. *)
Definition identityTags (sch : option runtime.Scheme) (call : Call) : list ot.Tag :=
  if viaScheme call then kindTag <$> option_list (last (candidates sch (subject call)))
  else objectTags (subject call).

(** The span has no tag with this key. *)
Definition lacks (key : string) (d : ot.SpanData) : Prop :=
  Forall (λ t, ot.Key t ≠ key) (ot.Tags d).

Definition payloadLogs (call : Call)
  : list (list (string * ot.TagValue + error)) :=
  match call with
  | CallPatch obj patch _ | CallStatusPatch obj patch _ => patchLogs patch obj
  | _ => []
  end.

Definition spanOf (sch : option runtime.Scheme) (ctx : ot.Context)
    (call : Call) (err : option error) : ot.SpanData :=
  {| ot.OperationName := operationName call;
     ot.ParentID := ot.activeSpan ctx;
     ot.Tags := startTags call ++ identityTags sch call ++ errorTags err;
     ot.Logs := payloadLogs call ++ errorLogs err |}.

(** A tracer whose last span is [d]. *)
Definition endingWith (l : list ot.SpanData) (fin : list ot.Span)
    (d : ot.SpanData) : ot.Tracer :=
  {| ot.spans := l ++ [d]; ot.finished := fin |}.
Global Arguments endingWith : simpl never.

(** The tags of a span with a given key, oldest first. *)
Definition tagsWithKey (key : string) (d : ot.SpanData) : list ot.TagValue :=
  ot.Value <$> filter (λ t, ot.Key t = key) (ot.Tags d).

End spans.

(** * What stamping does to an object's annotations *)
Module annotations.
Import unstructured.

(** The annotations a top-level object map holds, as [GetAnnotations] reads
    them. *)
Definition annotationsOf (top : gmap string Value) : option (gmap string string) :=
  match NestedStringMap top ["metadata"; "annotations"] with
  | Found m => Some m
  | _ => None
  end.

(** [metadata] is absent or a map: [SetNestedField] can walk through it. *)
Definition settable (top : gmap string Value) : Prop :=
  match top !! "metadata" with
  | None | Some (VMap _) => True
  | Some _ => False
  end.

(** The object's map is allocated, and annotations can be set on it. *)
Definition stampable (h : Heap) (u : Unstructured) : Prop :=
  ∃ l top, Object u = Some l ∧ h !! l = Some top ∧ settable top.

(** The annotations after a stamp: the ones before, with the key set. *)
Definition stamped (key spanContext : string) (a : option (gmap string string))
  : gmap string string :=
  <[key := spanContext]> (default ∅ a).

(** The zero value, [unstructured.Unstructured{}]. *)
Definition zero : Unstructured := {| Object := None |}.

End annotations.

(** * Concrete clients, objects and schemes

    Small instances on which the statements below are evaluated. The world of
    the wrapped client is the number of calls it has served. *)
Module fixtures.

(** A client that answers every call with the object it was handed and the
    error [answer]. *)
Definition answering (answer : option error) : client.Client.t nat :=
  let serve (obj : runtime.Object) : M nat client.Result :=
    λ n, ((obj, answer), S n) in
  {| client.Client.Get := λ _ _ obj, serve obj;
     client.Client.List := λ _ obj _, serve obj;
     client.Client.Create := λ _ obj _, serve obj;
     client.Client.Delete := λ _ obj _, serve obj;
     client.Client.Update := λ _ obj _, serve obj;
     client.Client.Patch := λ _ obj _ _, serve obj;
     client.Client.DeleteAllOf := λ _ obj _, serve obj;
     client.Client.Status :=
       {| client.StatusWriter.Update := λ _ obj _, serve obj;
          client.StatusWriter.Patch := λ _ obj _ _, serve obj |} |}.

Definition cacheReader : client.Reader.t nat :=
  {| client.Reader.Get := λ _ _ obj n, ((obj, None), S n);
     client.Reader.List := λ _ obj _ n, ((obj, None), S n) |}.

Definition machineKind : schema.GroupVersionKind :=
  {| schema.Group := "cluster.x-k8s.io"; schema.Version := "v1alpha3";
     schema.Kind := "Machine" |}.

Definition machineKindV2 : schema.GroupVersionKind :=
  {| schema.Group := "cluster.x-k8s.io"; schema.Version := "v1alpha2";
     schema.Kind := "Machine" |}.

(** A typed object as a controller holds it: no kind set on the object
    itself. *)
Definition machine : runtime.Object :=
  {| runtime.goType := "*v1alpha3.Machine";
     runtime.GroupVersionKind :=
       {| schema.Group := ""; schema.Version := ""; schema.Kind := "" |};
     runtime.objectMeta :=
       Some {| runtime.GetNamespace := "ns1"; runtime.GetName := "name1" |};
     runtime.content := "spec" |}.

Definition knowsNothing : runtime.Scheme :=
  {| runtime.ObjectKinds := λ _,
       ([], false, Some (errors.New "no kind is registered for the type")) |}.

Definition knowsMachines : runtime.Scheme :=
  {| runtime.ObjectKinds := λ obj,
       if bool_decide (runtime.goType obj = "*v1alpha3.Machine")
       then ([machineKind; machineKindV2], false, None)
       else ([], false, Some (errors.New "no kind is registered for the type")) |}.

Definition wrapping (answer : option error) (sch : option runtime.Scheme)
  : tracing.tracingClient nat :=
  {| tracing.Client := answering answer; tracing.scheme := sch |}.

Definition background : ot.Context :=
  {| ot.activeSpan := None; ot.carried := "" |}.

Definition fresh_ : tracing.State nat :=
  {| tracing.tracer := {| ot.spans := []; ot.finished := [] |};
     tracing.world := 0 |}.

Definition ns1name1 : client.ObjectKey :=
  {| types.Namespace := "ns1"; types.Name := "name1" |}.

Definition boom : error := errors.New "boom".

(** [clusterctl move]: a client package whose constructor succeeds and
    whose [Move] fails; the world counts the calls served. *)
Definition moveFails : cmd.Client nat :=
  {| cmd.Move := λ _ n, (Some boom, S n) |}.

Definition newSucceeds (path : string) : M nat (cmd.Client nat + error) :=
  λ n, (inl moveFails, S n).

Definition noDestination : cmd.moveOptions :=
  {| cmd.fromKubeconfig := "source.yaml"; cmd.namespace := "default";
     cmd.toKubeconfig := "" |}.

Definition withDestination : cmd.moveOptions :=
  {| cmd.fromKubeconfig := "source.yaml"; cmd.namespace := "default";
     cmd.toKubeconfig := "target.yaml" |}.

Definition idle : cmd.State nat := {| cmd.world := 0; cmd.calls := [] |}.

(** Two objects on the heap: one with an annotation already, one with no
    metadata at all. *)
Definition annotated : unstructured.Unstructured :=
  {| unstructured.Object := Some 1%positive |}.

Definition bare : unstructured.Unstructured :=
  {| unstructured.Object := Some 2%positive |}.

Definition twoObjects : unstructured.Heap :=
  {[ 1%positive :=
       {[ "metadata" :=
            unstructured.VMap
              {[ "annotations" :=
                   unstructured.VMap {[ "owner" := unstructured.VString "alice" ]};
                 "name" := unstructured.VString "m1" ]} ]};
     2%positive := {[ "kind" := unstructured.VString "Machine" ]} ]}.

Definition traceKey : string := "trace".

Definition encodes (span : ot.Span) : string + error := inl "ctx".

Definition cannotEncode (span : ot.Span) : string + error := inr boom.

End fixtures.

(** * Sequences of calls, and the clients behind [NewRuntimeClient] *)
Module usage.
Import tracing.

(** A caller making one call after the other on the same context. *)
Definition invokeEach {W} (c : tracingClient W) (ctx : ot.Context)
    (calls : list Call) : M (State W) unit :=
  forRange calls (λ call, let* _ := invoke c ctx call in ret tt)%go.

(** Every span the tracer has started has been finished, once, in the order
    the spans were started. *)
Definition allFinished (t : ot.Tracer) : Prop :=
  ot.finished t = seq 0 (length (ot.spans t)).

(** The calls [client.DelegatingClient] sends to the client made by
    [client.New]: every write, and the reads of unstructured objects. *)
Definition readsLive (call : Call) : bool :=
  match call with
  | CallGet _ obj => bool_decide (runtime.goType obj = "*unstructured.Unstructured")
  | CallList list _ =>
      bool_decide (runtime.goType list = "*unstructured.UnstructuredList")
  | _ => true
  end.

(** The errors, and the string fields, logged on a span, oldest first. *)
Definition loggedErrors (d : ot.SpanData) : list error :=
  omap (λ f, match f with inr e => Some e | inl _ => None end) (concat (ot.Logs d)).

Definition loggedStrings (d : ot.SpanData) : list (string * string) :=
  omap (λ f, match f with
             | inl (k, ot.TString v) => Some (k, v)
             | _ => None
             end) (concat (ot.Logs d)).

(** The patch of a call, for the two patching operations. *)
Definition patchOf (call : Call) : option (client.Patch * runtime.Object) :=
  match call with
  | CallPatch obj patch _ | CallStatusPatch obj patch _ => Some (patch, obj)
  | _ => None
  end.

(** A [client.Reader] called as the reading half of a client. *)
Definition read {W} (r : client.Reader.t W) (ctx : ot.Context) (call : Call)
  : option (M W client.Result) :=
  match call with
  | CallGet key obj => Some (client.Reader.Get r ctx key obj)
  | CallList list opts => Some (client.Reader.List r ctx list opts)
  | _ => None
  end.

End usage.

(** * The object map after a stamp *)
Module objectmaps.
Import unstructured annotations.

(** The [metadata] map of an object, empty when there is none. *)
Definition metadataOf (top : gmap string Value) : gmap string Value :=
  match top !! "metadata" with
  | Some (VMap md) => md
  | _ => ∅
  end.

Global Instance settable_dec top : Decision (settable top).
Proof.
  unfold settable. destruct (top !! "metadata") as [[s|md|r]|]; apply _.
Defined.

(** What one stamp makes of an object map: the annotations are replaced by
    the ones read, with the key set; a map whose [metadata] is not a map is
    left alone. *)
Definition stampMap (key spanContext : string) (top : gmap string Value)
  : gmap string Value :=
  if decide (settable top)
  then <["metadata" :=
           VMap (<["annotations" :=
                     VMap (VString <$> stamped key spanContext (annotationsOf top))]>
                   (metadataOf top))]> top
  else top.

End objectmaps.

(** * The flags of [clusterctl move]

    [init] registers three string flags on [moveCmd], each bound to a field of
    [mo] and each with the empty string as default. A command line is taken
    after it has been split into flags and values. *)
Module flags.

Record StringVar := {
  name : string;
  shorthand : string;
  value : string;
  store : string → cmd.moveOptions → cmd.moveOptions;
}.

Definition moveFlags : list StringVar :=
  [ {| name := "kubeconfig"; shorthand := ""; value := "";
       store := λ v mo, {| cmd.fromKubeconfig := v;
                           cmd.namespace := cmd.namespace mo;
                           cmd.toKubeconfig := cmd.toKubeconfig mo |} |};
    {| name := "to-kubeconfig"; shorthand := ""; value := "";
       store := λ v mo, {| cmd.fromKubeconfig := cmd.fromKubeconfig mo;
                           cmd.namespace := cmd.namespace mo;
                           cmd.toKubeconfig := v |} |};
    {| name := "namespace"; shorthand := "n"; value := "";
       store := λ v mo, {| cmd.fromKubeconfig := cmd.fromKubeconfig mo;
                           cmd.namespace := v;
                           cmd.toKubeconfig := cmd.toKubeconfig mo |} |} ].

(** [var mo = &moveOptions{}], then [init]: registering a flag stores its
    default in the variable it is bound to. *)
Definition init : cmd.moveOptions :=
  foldl (λ mo f, store f (value f) mo)
    {| cmd.fromKubeconfig := ""; cmd.namespace := ""; cmd.toKubeconfig := "" |}
    moveFlags.

(** One flag of the command line: [--name=value] or [-n value]. *)
Inductive Arg :=
| Long (name value : string)
| Short (shorthand value : string).

Definition lookup (a : Arg) : option StringVar :=
  match a with
  | Long n _ => List.find (λ f, bool_decide (name f = n)) moveFlags
  | Short s _ =>
      List.find (λ f, bool_decide (shorthand f = s) && negb (bool_decide (s = "")))
        moveFlags
  end.

Definition given (a : Arg) : string :=
  match a with Long _ v | Short _ v => v end.

(** Parsing stores each value in its variable, left to right, and stops at a
    flag that is not registered ([None]). *)
Fixpoint parse (args : list Arg) (mo : cmd.moveOptions) : option cmd.moveOptions :=
  match args with
  | [] => Some mo
  | a :: rest =>
      match lookup a with
      | Some f => parse rest (store f (given a) mo)
      | None => None
      end
  end.

(** The ways to spell each of the three flags. *)
Definition isSource (a : Arg) : bool :=
  match a with
  | Long n _ => bool_decide (n = "kubeconfig")
  | Short _ _ => false
  end.

Definition isDestination (a : Arg) : bool :=
  match a with
  | Long n _ => bool_decide (n = "to-kubeconfig")
  | Short _ _ => false
  end.

Definition isNamespace (a : Arg) : bool :=
  match a with
  | Long n _ => bool_decide (n = "namespace")
  | Short s _ => bool_decide (s = "n")
  end.

(** The value given last to a flag, [start] when the flag is not given. *)
Definition lastGiven (which : Arg → bool) (start : string) (args : list Arg)
  : string :=
  default start (last (given <$> filter (λ a, which a = true) args)).

End flags.

(** * More concrete instances *)
Module samples.

(** A live client and a cache that answer differently. *)
Definition live : client.Client.t nat := fixtures.answering (Some fixtures.boom).

Definition newLive (config : tracing.Config) (options : client.Options)
  : client.Client.t nat + error := inl live.

Definition deployment : runtime.Object :=
  {| runtime.goType := "*v1.Deployment";
     runtime.GroupVersionKind :=
       {| schema.Group := "apps"; schema.Version := "v1";
          schema.Kind := "Deployment" |};
     runtime.objectMeta :=
       Some {| runtime.GetNamespace := "ns1"; runtime.GetName := "name1" |};
     runtime.content := "spec" |}.

Definition mergePatch : client.Patch :=
  {| client.PatchType := "application/merge-patch+json";
     client.Data := λ _, inl "{}" |}.

(** An object whose [metadata] is a string, and one nobody points to. *)
Definition broken : unstructured.Unstructured :=
  {| unstructured.Object := Some 3%positive |}.

Definition threeObjects : unstructured.Heap :=
  <[ 3%positive := {[ "metadata" := unstructured.VString "oops" ]} ]>
    fixtures.twoObjects.


Definition moveSucceeds : cmd.Client nat :=
  {| cmd.Move := λ _ n, (None, S n) |}.

Definition newMoves (path : string) : M nat (cmd.Client nat + error) :=
  λ n, (inl moveSucceeds, S n).

End samples.

(** * Proofs *)

(** ** The tracer, on the span started last *)
Section LastSpan.
Variable l : list ot.SpanData.
Variable fin : list ot.Span.

Local Abbreviation at_ := (spans.endingWith l fin).

Lemma add_nil d : spans.add d [] [] = d.
Proof. destruct d. unfold spans.add. simpl. by rewrite !app_nil_r. Qed.

Lemma add_add d t1 l1 t2 l2 :
  spans.add (spans.add d t1 l1) t2 l2 = spans.add d (t1 ++ t2) (l1 ++ l2).
Proof. unfold spans.add. simpl. by rewrite !app_assoc. Qed.

Lemma filter_other_keys key (tags : list ot.Tag) :
  Forall (λ t, ot.Key t ≠ key) tags →
  filter (λ t, ot.Key t ≠ key) tags = tags.
Proof.
  induction 1 as [|t tags Ht _ IH]; [done|].
  by rewrite filter_cons_True, IH.
Qed.

Lemma filter_same_key key (tags : list ot.Tag) :
  Forall (λ t, ot.Key t = key) tags →
  filter (λ t, ot.Key t ≠ key) tags = [].
Proof.
  induction 1 as [|t tags Ht _ IH]; [done|].
  rewrite filter_cons_False; [done|]. by intros ?.
Qed.

Lemma lacks_add key d tags logs :
  spans.lacks key d → Forall (λ t, ot.Key t ≠ key) tags →
  spans.lacks key (spans.add d tags logs).
Proof. unfold spans.lacks, spans.add. simpl. intros. by apply Forall_app. Qed.

Lemma lacks_kindTags key d (gvks : list schema.GroupVersionKind) logs :
  key ≠ "objectKind" → spans.lacks key d →
  spans.lacks key (spans.add d (spans.kindTag <$> gvks) logs).
Proof.
  intros Hne Hd. apply lacks_add; [done|].
  apply Forall_fmap, Forall_forall. intros gvk _. simpl. congruence.
Qed.

Lemma lacks_objectTags key d obj logs :
  key ≠ "objectKind" → key ≠ "objectKey" → spans.lacks key d →
  spans.lacks key (spans.add d (spans.objectTags obj) logs).
Proof.
  intros Hkind Hkey Hd. apply lacks_add; [done|]. unfold spans.objectTags.
  destruct (schema.Empty _), (runtime.objectMeta obj); simpl;
    repeat (constructor; [simpl; congruence|]); constructor.
Qed.

Lemma onSpan_last f d :
  ot.onSpan (length l) f (at_ d) = (tt, at_ (f d)).
Proof.
  unfold ot.onSpan, modify, spans.endingWith. simpl. do 2 f_equal.
  replace (length l) with (length l + 0) by lia.
  by rewrite alter_app_r.
Qed.

(** Setting a tag on a span that has tags under that key after the ones of
    [d]: they go, the new one stays. *)
Lemma SetTag_replace k v d old logs :
  spans.lacks k d → Forall (λ t, ot.Key t = k) old →
  ot.SetTag (length l) k v (at_ (spans.add d old logs))
  = (tt, at_ (spans.add d [{| ot.Key := k; ot.Value := v |}] logs)).
Proof.
  intros Hd Hold. unfold ot.SetTag. rewrite onSpan_last.
  unfold spans.add, ot.setTag. simpl.
  by rewrite filter_app, filter_other_keys, filter_same_key, app_nil_r.
Qed.

Lemma SetTag_last k v d :
  spans.lacks k d →
  ot.SetTag (length l) k v (at_ d)
  = (tt, at_ (spans.add d [{| ot.Key := k; ot.Value := v |}] [])).
Proof.
  intros Hd. rewrite <- (add_nil d) at 1. by apply SetTag_replace.
Qed.

Lemma LogFields_last fields d :
  ot.LogFields (length l) fields (at_ d) = (tt, at_ (spans.add d [] [fields])).
Proof.
  unfold ot.LogFields. rewrite onSpan_last. unfold spans.add. simpl.
  by rewrite app_nil_r.
Qed.

Opaque ot.SetTag ot.LogFields.

Lemma setObjectTags_last obj d :
  spans.lacks "objectKind" d → spans.lacks "objectKey" d →
  tracing.setObjectTags (length l) obj (at_ d)
  = (tt, at_ (spans.add d (spans.objectTags obj) [])).
Proof.
  intros Hkind Hkey.
  unfold tracing.setObjectTags, spans.objectTags, meta.Accessor, bind.
  destruct (schema.Empty _); simpl.
  - destruct (runtime.objectMeta obj); simpl.
    + by rewrite SetTag_last.
    + unfold ret. by rewrite add_nil.
  - rewrite SetTag_last by done. destruct (runtime.objectMeta obj); simpl.
    + rewrite SetTag_last, add_add; [done|].
      apply lacks_add; [done|]. by repeat constructor.
    + done.
Qed.

(** The loop of [setBlankObjectTags], entered with the kind tag [cur] (or
    none) already on the span: it leaves the last candidate, and [cur] when
    there is no candidate. *)
Lemma kindTags_last gvks : ∀ d cur,
  spans.lacks "objectKind" d →
  forRange gvks (λ gvk,
    ot.SetTag (length l) "objectKind" (ot.TString (schema.String gvk)))
    (at_ (spans.add d (spans.kindTag <$> option_list cur) []))
  = (tt, at_ (spans.add d
                (spans.kindTag <$> option_list (match last gvks with
                                                | Some gvk => Some gvk
                                                | None => cur
                                                end)) [])).
Proof.
  induction gvks as [|gvk gvks IH]; intros d cur Hd; simpl forRange.
  - done.
  - unfold bind. rewrite SetTag_replace.
    + rewrite last_cons. etrans; [exact (IH d (Some gvk) Hd)|].
      by destruct (last gvks).
    + done.
    + apply Forall_fmap, Forall_forall. by intros ? _.
Qed.

Lemma setBlankObjectTags_last {W} (c : tracing.tracingClient W) obj d :
  spans.lacks "objectKind" d →
  tracing.setBlankObjectTags c (length l) obj (at_ d)
  = (tt, at_ (spans.add d
                (spans.kindTag
                 <$> option_list (last (spans.candidates (tracing.scheme c) obj)))
                [])).
Proof.
  intros Hd. unfold tracing.setBlankObjectTags, spans.candidates.
  destruct (tracing.scheme c) as [s|].
  - destruct (runtime.ObjectKinds s obj) as [[gvks b] e]. simpl.
    pose proof (kindTags_last gvks d None Hd) as Hloop.
    change (spans.kindTag <$> option_list None) with (@nil ot.Tag) in Hloop.
    rewrite add_nil in Hloop. rewrite Hloop. by destruct (last gvks).
  - unfold ret. simpl. by rewrite add_nil.
Qed.

Lemma logPatch_last patch obj d :
  tracing.logPatch (length l) patch obj (at_ d)
  = (tt, at_ (spans.add d [] (spans.patchLogs patch obj))).
Proof.
  unfold tracing.logPatch, spans.patchLogs.
  destruct (client.Data patch obj).
  - apply LogFields_last.
  - unfold ret. by rewrite add_nil.
Qed.

Lemma traceError_last err d :
  spans.lacks "error" d →
  tracing.traceError (length l) err (at_ d)
  = (err, at_ (spans.add d (spans.errorTags err) (spans.errorLogs err))).
Proof.
  intros Hd.
  unfold tracing.traceError, spans.errorTags, spans.errorLogs, bind, ext.Error_Set.
  destruct err as [e|].
  - by rewrite SetTag_last, LogFields_last, add_add.
  - unfold ret. by rewrite add_nil.
Qed.

Transparent ot.SetTag ot.LogFields.

End LastSpan.

(** ** One call of the decorator, start to finish *)
Section Decorator.
Context {W : Type}.
Implicit Types (c : tracing.tracingClient W) (ctx : ot.Context).
Implicit Types (call : tracing.Call) (s : tracing.State W).

Lemma StartSpanFromContext_run ctx name tags l fin :
  ot.StartSpanFromContext ctx name tags {| ot.spans := l; ot.finished := fin |}
  = ((length l, ot.ContextWithSpan ctx (length l)),
     spans.endingWith l fin
       {| ot.OperationName := name; ot.ParentID := ot.activeSpan ctx;
          ot.Tags := foldl (λ tags t, ot.setTag tags (ot.Key t) (ot.Value t)) [] tags;
          ot.Logs := [] |}).
Proof. reflexivity. Qed.

Lemma Finish_run sp l fin d :
  ot.Finish sp (spans.endingWith l fin d)
  = (tt, {| ot.spans := l ++ [d]; ot.finished := fin ++ [sp] |}).
Proof. reflexivity. Qed.

Opaque ot.StartSpanFromContext ot.Finish tracing.setObjectTags
  tracing.setBlankObjectTags tracing.logPatch tracing.traceError.

(** The span lacks a key: through the tags and logs added so far, down to
    the tags of the start options. *)
Ltac lacking :=
  repeat first [ apply lacks_kindTags; [done|]
               | apply lacks_objectTags; [done|done|]
               | apply lacks_add; [|by constructor] ];
  unfold spans.lacks; simpl; by repeat constructor.

Ltac run_call :=
  unfold tracing.invoke, tracing.delegate, tracing.tracingClient_Get,
    tracing.tracingClient_List, tracing.tracingClient_Create,
    tracing.tracingClient_Delete, tracing.tracingClient_Update,
    tracing.tracingClient_Patch, tracing.tracingClient_DeleteAllOf,
    tracing.tracingStatusWriter_Update, tracing.tracingStatusWriter_Patch,
    tracing.tracingClient_Status, tracing.traced, defer, bind, ret,
    tracing.onTracer, tracing.onWorld;
  simpl;
  rewrite StartSpanFromContext_run; simpl;
  first [ rewrite setBlankObjectTags_last by lacking
        | rewrite setObjectTags_last by lacking ];
  simpl;
  rewrite ?logPatch_last; simpl.

(** The decorator returns what the wrapped client returned, called with the
    context that carries the new span; it leaves the wrapped client's world
    as that call left it; the tracer has one more span, [spans.spanOf], and
    one more finished span, the new one. *)
Lemma invoke_spec c ctx call s :
  let sp := length (ot.spans (tracing.tracer s)) in
  let r := tracing.delegate (tracing.Client c) (ot.ContextWithSpan ctx sp) call
             (tracing.world s) in
  tracing.invoke c ctx call s
  = (r.1,
     {| tracing.tracer :=
          {| ot.spans := ot.spans (tracing.tracer s)
                         ++ [spans.spanOf (tracing.scheme c) ctx call r.1.2];
             ot.finished := ot.finished (tracing.tracer s) ++ [sp] |};
        tracing.world := r.2 |}).
Proof.
  destruct s as [[l fin] w]. simpl.
  destruct call; run_call.
  all: match goal with
       | |- context [let '(_, _) := ?m in _] =>
           match type of m with
           | (client.Result * W)%type => destruct m as [[obj' err] w']
           end
       end; simpl.
  all: rewrite traceError_last by lacking; simpl; rewrite Finish_run.
  all: unfold spans.spanOf, spans.add, spans.identityTags; simpl.
  all: rewrite ?app_nil_r; try done.
Qed.

Transparent ot.StartSpanFromContext ot.Finish tracing.setObjectTags
  tracing.setBlankObjectTags tracing.logPatch tracing.traceError.

End Decorator.

(** ** Tags by key *)
Section TagsWithKey.

Lemma tagsWithKey_spanOf key sch ctx call err :
  spans.tagsWithKey key (spans.spanOf sch ctx call err)
  = ot.Value <$> (filter (λ t, ot.Key t = key) (spans.startTags call)
                  ++ filter (λ t, ot.Key t = key) (spans.identityTags sch call)
                  ++ filter (λ t, ot.Key t = key) (spans.errorTags err)).
Proof. unfold spans.tagsWithKey. simpl. by rewrite !filter_app. Qed.

Lemma filter_kindTags_same (gvks : list schema.GroupVersionKind) :
  filter (λ t, ot.Key t = "objectKind") (spans.kindTag <$> gvks)
  = spans.kindTag <$> gvks.
Proof.
  induction gvks as [|gvk gvks IH]; [done|].
  rewrite fmap_cons, filter_cons_True by done. by rewrite IH.
Qed.

Lemma filter_kindTags_other key (gvks : list schema.GroupVersionKind) :
  key ≠ "objectKind" →
  filter (λ t, ot.Key t = key) (spans.kindTag <$> gvks) = [].
Proof.
  intros Hne. induction gvks as [|gvk gvks IH]; [done|].
  rewrite fmap_cons, filter_cons_False; [done|]. simpl. congruence.
Qed.

Lemma filter_errorTags_other key err :
  key ≠ "error" →
  filter (λ t, ot.Key t = key) (spans.errorTags err) = [].
Proof.
  intros Hne. destruct err; [|done]. simpl.
  rewrite filter_cons_False; [done|]. simpl. congruence.
Qed.

Lemma filter_startTags_objectKey call :
  filter (λ t, ot.Key t = "objectKey") (spans.startTags call)
  = spans.startTags call.
Proof. by destruct call. Qed.

Lemma filter_startTags_other key call :
  key ≠ "objectKey" →
  filter (λ t, ot.Key t = key) (spans.startTags call) = [].
Proof.
  intros Hne. destruct call; try done. simpl.
  rewrite filter_cons_False; [done|]. simpl. congruence.
Qed.

End TagsWithKey.

(** ** The decorator: results, spans, tags *)
Section Claims.
Context {W : Type}.
Implicit Types (c : tracing.tracingClient W) (ctx : ot.Context).
Implicit Types (call : tracing.Call) (s : tracing.State W).

(** C1. Whatever the operation and whatever the wrapped client returns, the
    decorator returns that same object and error: the pair it returns is the
    pair the wrapped client returned when called with the context carrying the
    new span, and the wrapped client's world is left as that call left it. *)
Theorem decorator_returns_delegate_result c ctx call s :
  let sp := length (ot.spans (tracing.tracer s)) in
  let r := tracing.delegate (tracing.Client c) (ot.ContextWithSpan ctx sp) call
             (tracing.world s) in
  (tracing.invoke c ctx call s).1 = r.1
  ∧ tracing.world (tracing.invoke c ctx call s).2 = r.2.
Proof. intros sp r. by rewrite invoke_spec. Qed.

(** C2. Every operation, on every outcome, starts exactly one span and
    finishes exactly one: when it returns the tracer holds the spans it held
    before, unchanged, followed by one new span, and its list of finished
    spans has grown by one entry, the new span. *)
Theorem one_span_started_and_finished c ctx call s :
  let t := tracing.tracer s in
  let t' := tracing.tracer (tracing.invoke c ctx call s).2 in
  length (ot.spans t') = S (length (ot.spans t))
  ∧ take (length (ot.spans t)) (ot.spans t') = ot.spans t
  ∧ ot.finished t' = ot.finished t ++ [length (ot.spans t)].
Proof.
  intros t t'. subst t t'. rewrite invoke_spec. simpl.
  rewrite length_app, take_app_length. simpl. split_and!; [lia|done|done].
Qed.

(** C6. When the scheme finds no kind for the object, [Get], [List] and
    [DeleteAllOf] still return the wrapped client's result, and their span
    carries no [objectKind] tag. *)
Theorem unresolved_kind_no_tag c ctx call s sch :
  tracing.viaScheme call = true →
  tracing.scheme c = Some sch →
  (runtime.ObjectKinds sch (tracing.subject call)).1.1 = [] →
  let sp := length (ot.spans (tracing.tracer s)) in
  let r := tracing.delegate (tracing.Client c) (ot.ContextWithSpan ctx sp) call
             (tracing.world s) in
  (tracing.invoke c ctx call s).1 = r.1
  ∧ ∃ d, ot.spans (tracing.tracer (tracing.invoke c ctx call s).2) !! sp = Some d
         ∧ spans.tagsWithKey "objectKind" d = [].
Proof.
  intros Hvia Hsch Hnone sp r. rewrite invoke_spec. simpl. split; [done|].
  eexists. split; [by apply list_lookup_middle|].
  rewrite tagsWithKey_spanOf.
  unfold spans.identityTags, spans.candidates. rewrite Hvia, Hsch, Hnone.
  rewrite filter_startTags_other by done.
  by rewrite filter_errorTags_other.
Qed.

(** X18. What [Get], [List] and [DeleteAllOf] leave of the scheme's candidates:
    every candidate is set under the key [objectKind], each replacing the one
    before, so the span ends with the last candidate as its one [objectKind]
    tag, and with none when there is no candidate. *)
Lemma last_candidate_kind_tagged c ctx call s sch :
  tracing.viaScheme call = true →
  tracing.scheme c = Some sch →
  let sp := length (ot.spans (tracing.tracer s)) in
  ∃ d, ot.spans (tracing.tracer (tracing.invoke c ctx call s).2) !! sp = Some d
       ∧ spans.tagsWithKey "objectKind" d
         = match last (runtime.ObjectKinds sch (tracing.subject call)).1.1 with
           | Some gvk => [ot.TString (schema.String gvk)]
           | None => []
           end.
Proof.
  intros Hvia Hsch sp. rewrite invoke_spec. simpl.
  eexists. split; [by apply list_lookup_middle|].
  rewrite tagsWithKey_spanOf.
  unfold spans.identityTags, spans.candidates. rewrite Hvia, Hsch.
  rewrite filter_startTags_other by done.
  rewrite filter_errorTags_other by done.
  rewrite filter_kindTags_same, app_nil_r. simpl.
  by destruct (last _).
Qed.

End Claims.

Section LookupKey.
Context {W : Type}.
Implicit Types (c : tracing.tracingClient W) (ctx : ot.Context).
Implicit Types (s : tracing.State W).


End LookupKey.



Lemma unresolved_kind_no_tag_witness :
  tracing.viaScheme (tracing.CallList fixtures.machine []) = true
  ∧ tracing.scheme (fixtures.wrapping (Some fixtures.boom) (Some fixtures.knowsNothing))
    = Some fixtures.knowsNothing
  ∧ (runtime.ObjectKinds fixtures.knowsNothing fixtures.machine).1.1 = []
  ∧ (tracing.invoke (fixtures.wrapping (Some fixtures.boom) (Some fixtures.knowsNothing))
       fixtures.background (tracing.CallList fixtures.machine []) fixtures.fresh_).1
    = (fixtures.machine, Some fixtures.boom)
  ∧ ∃ d, ot.spans (tracing.tracer
           (tracing.invoke
              (fixtures.wrapping (Some fixtures.boom) (Some fixtures.knowsNothing))
              fixtures.background (tracing.CallList fixtures.machine [])
              fixtures.fresh_).2) !! 0 = Some d
         ∧ spans.tagsWithKey "objectKind" d = [].
Proof.
  split; [reflexivity|]. split; [reflexivity|]. split; [reflexivity|].
  apply (unresolved_kind_no_tag
           (fixtures.wrapping (Some fixtures.boom) (Some fixtures.knowsNothing))
           fixtures.background (tracing.CallList fixtures.machine [])
           fixtures.fresh_ fixtures.knowsNothing); reflexivity.
Defined.

Lemma last_candidate_kind_tagged_witness :
  tracing.viaScheme (tracing.CallList fixtures.machine []) = true
  ∧ tracing.scheme (fixtures.wrapping None (Some fixtures.knowsMachines))
    = Some fixtures.knowsMachines
  ∧ ∃ d, ot.spans (tracing.tracer
           (tracing.invoke (fixtures.wrapping None (Some fixtures.knowsMachines))
              fixtures.background (tracing.CallList fixtures.machine [])
              fixtures.fresh_).2) !! 0 = Some d
         ∧ spans.tagsWithKey "objectKind" d
           = [ot.TString "cluster.x-k8s.io/v1alpha2, Kind=Machine"].
Proof.
  split; [reflexivity|]. split; [reflexivity|].
  apply (last_candidate_kind_tagged
           (fixtures.wrapping None (Some fixtures.knowsMachines))
           fixtures.background (tracing.CallList fixtures.machine [])
           fixtures.fresh_ fixtures.knowsMachines); reflexivity.
Defined.

(** C7 fails when the scheme yields more than one kind. The scheme knows the
    [Machine] type under two kinds, [v1alpha3] and [v1alpha2];
    [DeleteAllOf] sets both under the key [objectKind], the second replaces
    the first, and the span is tagged with [v1alpha2] alone. *)
Theorem first_candidate_kind_is_not_tagged :
  (runtime.ObjectKinds fixtures.knowsMachines fixtures.machine).1.1
  = [fixtures.machineKind; fixtures.machineKindV2]
  ∧ ∃ d, ot.spans (tracing.tracer
           (tracing.invoke (fixtures.wrapping None (Some fixtures.knowsMachines))
              fixtures.background (tracing.CallDeleteAllOf fixtures.machine [])
              fixtures.fresh_).2) !! 0 = Some d
         ∧ ot.Tags d
           = [{| ot.Key := "objectKind";
                 ot.Value := ot.TString "cluster.x-k8s.io/v1alpha2, Kind=Machine" |}]
         ∧ spans.tagsWithKey "objectKind" d
           = [ot.TString "cluster.x-k8s.io/v1alpha2, Kind=Machine"].
Proof.
  split; [reflexivity|]. eexists. split; [reflexivity|]. split; reflexivity.
Qed.

(** ** The constructors *)
Section Constructors.
Context {W : Type}.

(** C10. When the underlying constructor fails, [NewRuntimeClient] and the
    function made by [WrapRuntimeClient] return that error and no client;
    a tracing client, when one is returned, wraps the client the
    constructor returned. *)
Theorem constructor_error_passes_through
    (client_New : tracing.Config → client.Options → client.Client.t W + error)
    (upstreamNew : tracing.NewClientFunc (client.Client.t W))
    (cache : client.Reader.t W) (config : tracing.Config)
    (options : client.Options) :
  (∀ err, client_New config options = inr err →
     tracing.NewRuntimeClient client_New cache config options = inr err)
  ∧ (∀ err, upstreamNew cache config options = inr err →
       tracing.WrapRuntimeClient upstreamNew cache config options = inr err)
  ∧ (∀ tc, tracing.NewRuntimeClient client_New cache config options = inl tc →
       ∃ c, client_New config options = inl c
            ∧ tracing.Client tc
              = client.DelegatingClient_Client
                  {| client.Reader_ := {| client.CacheReader := cache;
                                          client.ClientReader := c |};
                     client.Writer := c;
                     client.StatusClient := c |}
            ∧ tracing.scheme tc = client.Scheme options)
  ∧ (∀ tc, tracing.WrapRuntimeClient upstreamNew cache config options = inl tc →
       upstreamNew cache config options = inl (tracing.Client tc)
       ∧ tracing.scheme tc = client.Scheme options).
Proof.
  unfold tracing.NewRuntimeClient, tracing.WrapRuntimeClient. split_and!.
  - by intros err ->.
  - by intros err ->.
  - intros tc. destruct (client_New config options) as [c|err]; [|done].
    intros [= <-]. by exists c.
  - intros tc. destruct (upstreamNew cache config options) as [c|err]; [|done].
    by intros [= <-].
Qed.

End Constructors.

Lemma constructor_error_passes_through_witness :
  tracing.NewRuntimeClient (λ _ _, inr fixtures.boom) fixtures.cacheReader
    "kubeconfig" {| client.Scheme := None |} = inr fixtures.boom
  ∧ tracing.WrapRuntimeClient (λ _ _ _, inr fixtures.boom) fixtures.cacheReader
      "kubeconfig" {| client.Scheme := None |} = inr fixtures.boom.
Proof.
  destruct (constructor_error_passes_through
              (λ _ _, inr fixtures.boom) (λ _ _ _, inr fixtures.boom)
              fixtures.cacheReader "kubeconfig" {| client.Scheme := None |})
    as (Hnew & Hwrap & _).
  split; [apply Hnew | apply Hwrap]; reflexivity.
Defined.

(** ** [clusterctl move] *)
Section RunMove.
Context {W : Type}.
Variable client_New : string → M W (cmd.Client W + error).
Variable cfgFile : string.
Variable mo : cmd.moveOptions.

(** C9. Without a destination [runMove] fails at once with the
    missing-destination error: nothing is called in the client package, and
    the world is left as it was. With a destination it constructs the client
    first; it returns the constructor's error when that fails, and otherwise
    calls [Move] with the three options and returns what [Move] returned. *)
Theorem runMove_requires_destination (s : cmd.State W) :
  (cmd.toKubeconfig mo = "" →
     cmd.runMove client_New cfgFile mo s
     = (Some (errors.New
          "please specify a target cluster using the --to-kubeconfig flag"), s))
  ∧ (cmd.toKubeconfig mo ≠ "" →
       let r := client_New cfgFile (cmd.world s) in
       match r.1 with
       | inr err =>
           cmd.runMove client_New cfgFile mo s
           = (Some err,
              {| cmd.world := r.2;
                 cmd.calls := cmd.calls s ++ [cmd.CalledNew cfgFile] |})
       | inl c =>
           let options := {| cmd.FromKubeconfig := cmd.fromKubeconfig mo;
                             cmd.ToKubeconfig := cmd.toKubeconfig mo;
                             cmd.Namespace := cmd.namespace mo |} in
           let m := cmd.Move c options r.2 in
           cmd.runMove client_New cfgFile mo s
           = (m.1,
              {| cmd.world := m.2;
                 cmd.calls := cmd.calls s ++ [cmd.CalledNew cfgFile;
                                              cmd.CalledMove options] |})
       end).
Proof.
  unfold cmd.runMove. split.
  - intros Hempty. rewrite bool_decide_eq_true_2 by done. by destruct s.
  - intros Hdest. rewrite bool_decide_eq_false_2 by done.
    unfold bind, cmd.call, ret.
    destruct (client_New cfgFile (cmd.world s)) as [[c|err] w]; simpl; [|done].
    destruct (cmd.Move c _ w) as [[err|] w']; simpl.
    + by rewrite <- app_assoc.
    + by rewrite <- app_assoc.
Qed.

End RunMove.

Lemma runMove_requires_destination_witness :
  cmd.toKubeconfig fixtures.noDestination = ""
  ∧ cmd.runMove fixtures.newSucceeds "clusterctl.yaml" fixtures.noDestination
      fixtures.idle
    = (Some (errors.New
         "please specify a target cluster using the --to-kubeconfig flag"),
       fixtures.idle)
  ∧ cmd.toKubeconfig fixtures.withDestination ≠ ""
  ∧ cmd.runMove fixtures.newSucceeds "clusterctl.yaml" fixtures.withDestination
      fixtures.idle
    = (Some fixtures.boom,
       {| cmd.world := 2;
          cmd.calls := [cmd.CalledNew "clusterctl.yaml";
                        cmd.CalledMove {| cmd.FromKubeconfig := "source.yaml";
                                          cmd.ToKubeconfig := "target.yaml";
                                          cmd.Namespace := "default" |}] |}).
Proof.
  split; [reflexivity|]. split.
  - apply (runMove_requires_destination fixtures.newSucceeds "clusterctl.yaml"
             fixtures.noDestination fixtures.idle). reflexivity.
  - split; [discriminate|].
    apply (proj2 (runMove_requires_destination fixtures.newSucceeds
                    "clusterctl.yaml" fixtures.withDestination fixtures.idle)).
    discriminate.
Defined.

(** ** Trace annotations *)
Section AddTraceAnnotation.
Variable TraceAnnotationKey : string.
Variable GenerateEmbeddableSpanContext : ot.Span → string + error.

Local Abbreviation AddTraceAnnotation :=
  (tracing.AddTraceAnnotation TraceAnnotationKey GenerateEmbeddableSpanContext).

Lemma onHeap_encodeCalls {A} (m : M unstructured.Heap A) (s : tracing.Mem) :
  tracing.encodeCalls (tracing.onHeap m s).2 = tracing.encodeCalls s.
Proof. unfold tracing.onHeap. by destruct (m (tracing.heap s)). Qed.

(** C5. When the encoder fails, [AddTraceAnnotation] returns the encoder's
    error and leaves the heap of object maps as it was; and on every
    outcome, for any number of objects, the encoder is called once. *)
Theorem encode_failure_stamps_nothing objs span (s : tracing.Mem) :
  (∀ err, GenerateEmbeddableSpanContext span = inr err →
     AddTraceAnnotation objs span s
     = (Some err, {| tracing.heap := tracing.heap s;
                     tracing.encodeCalls := S (tracing.encodeCalls s) |}))
  ∧ tracing.encodeCalls (AddTraceAnnotation objs span s).2
    = S (tracing.encodeCalls s).
Proof.
  unfold tracing.AddTraceAnnotation, tracing.encode, bind, ret. split.
  - by intros err ->.
  - destruct (GenerateEmbeddableSpanContext span) as [ctx|err]; [|done].
    set (s1 := {| tracing.heap := _; tracing.encodeCalls := _ |}).
    pose proof (onHeap_encodeCalls
                  (forRange objs (tracing.stamp TraceAnnotationKey ctx)) s1) as H.
    destruct (tracing.onHeap _ s1) as [[] s2]. exact H.
Qed.

End AddTraceAnnotation.

(** ** Setting and reading annotations on one object map *)
Section ObjectMap.
Import unstructured annotations.

Lemma omap_asString_VString (a : gmap string string) :
  omap asString (VString <$> a) = a.
Proof.
  apply map_eq. intros k. rewrite lookup_omap, lookup_fmap.
  by destruct (a !! k).
Qed.

Lemma all_strings_VString (a : gmap string string) :
  map_Forall (λ _ v, is_Some (asString v)) (VString <$> a).
Proof.
  intros k v. rewrite lookup_fmap. destruct (a !! k); [|done].
  intros [= <-]. by eexists.
Qed.

Lemma annotationsOf_set (top md : gmap string Value) (a : gmap string string) :
  annotationsOf
    (<["metadata" := VMap (<["annotations" := VMap (VString <$> a)]> md)]> top)
  = Some a.
Proof.
  unfold annotationsOf, NestedStringMap, nestedMapNoCopy. simpl.
  rewrite lookup_insert_eq. rewrite lookup_insert_eq.
  rewrite bool_decide_eq_true_2 by apply all_strings_VString.
  by rewrite omap_asString_VString.
Qed.

Lemma settable_set (top : gmap string Value) v :
  settable (<["metadata" := VMap v]> top).
Proof. unfold settable. by rewrite lookup_insert_eq. Qed.

(** On a settable map, setting the annotations succeeds, and reading them
    back gives what was set. *)
Lemma SetNestedStringMap_annotations (top : gmap string Value)
    (a : gmap string string) :
  settable top →
  ∃ top', SetNestedStringMap top a "metadata" ["annotations"] = Some top'
          ∧ annotationsOf top' = Some a ∧ settable top'.
Proof.
  unfold settable, SetNestedStringMap. simpl.
  destruct (top !! "metadata") as [[s|md|r]|]; try done; intros _.
  - eexists. split; [done|]. split; [apply annotationsOf_set|apply settable_set].
  - eexists. split; [done|]. split; [apply annotationsOf_set|apply settable_set].
Qed.

Lemma settable_empty : settable ∅.
Proof. unfold settable. by rewrite lookup_empty. Qed.

End ObjectMap.

(** ** The stamping loop on the heap *)
Section Stamping.
Import unstructured annotations.
Variable TraceAnnotationKey : string.
Variable spanContext : string.

Local Abbreviation stamp := (tracing.stamp TraceAnnotationKey spanContext).
Local Abbreviation stamped := (annotations.stamped TraceAnnotationKey spanContext).

Lemma stamped_again a : stamped (Some (stamped a)) = stamped a.
Proof. unfold annotations.stamped. simpl. by rewrite insert_insert_eq. Qed.

Lemma GetAnnotations_at o (h : Heap) l top :
  Object o = Some l → h !! l = Some top →
  GetAnnotations o h = annotationsOf top.
Proof.
  intros Ho Hl. unfold GetAnnotations, annotationsOf, deref.
  by rewrite Ho, Hl.
Qed.

(** One iteration, seen from any allocated, settable object map: the map
    the iteration's object points to is stamped, every other map keeps its
    annotations. An object whose [Object] is nil points to no map: the
    iteration stamps a map it has just allocated. *)
Lemma stamp_step o (h : Heap) l top :
  h !! l = Some top → settable top →
  ∃ top', (stamp o h).2 !! l = Some top' ∧ settable top'
          ∧ annotationsOf top'
            = if decide (Object o = Some l)
              then Some (stamped (annotationsOf top))
              else annotationsOf top.
Proof.
  intros Hl Hset.
  unfold tracing.stamp, bind, gets, ret, SetAnnotations, setNestedMap.
  destruct (decide (Object o = Some l)) as [Ho|Ho].
  - rewrite (GetAnnotations_at o h l top Ho Hl), Ho, Hl. simpl.
    destruct (SetNestedStringMap_annotations top
                (<[TraceAnnotationKey := spanContext]>
                   match annotationsOf top with
                   | Some a => a
                   | None => ∅
                   end) Hset) as (top' & -> & Hann & Hset').
    simpl. exists top'. rewrite lookup_insert_eq.
    split; [done|]. split; [done|]. rewrite Hann.
    unfold annotations.stamped. by destruct (annotationsOf top).
  - exists top. split; [|done].
    destruct (Object o) as [lo|].
    + assert (lo ≠ l) by congruence.
      destruct (SetNestedStringMap _ _ _ _); simpl;
        [by rewrite lookup_insert_ne|done].
    + assert (fresh (dom h) ≠ l) as Hfresh.
      { intros <-. apply (is_fresh (dom h)). apply elem_of_dom. by eexists. }
      destruct (SetNestedStringMap _ _ _ _); simpl;
        by rewrite !lookup_insert_ne.
Qed.

(** The whole loop: the maps some object of the slice points to are
    stamped, the others keep their annotations. *)
Lemma forRange_stamp objs : ∀ (h : Heap) l top,
  h !! l = Some top → settable top →
  ∃ top', (forRange objs stamp h).2 !! l = Some top' ∧ settable top'
          ∧ annotationsOf top'
            = if decide (Some l ∈ Object <$> objs)
              then Some (stamped (annotationsOf top))
              else annotationsOf top.
Proof.
  induction objs as [|o objs IH]; intros h l top Hl Hset.
  - by exists top.
  - simpl. unfold bind.
    destruct (stamp_step o h l top Hl Hset) as (top1 & Hl1 & Hset1 & Hann1).
    destruct (stamp o h) as [[] h1]. simpl in Hl1.
    destruct (IH h1 l top1 Hl1 Hset1) as (top' & Hl' & Hset' & Hann').
    exists top'. split; [done|]. split; [done|].
    rewrite Hann', Hann1.
    destruct (decide (Object o = Some l)) as [Ho|Ho];
      destruct (decide (Some l ∈ Object <$> objs)) as [Hin|Hin];
      case_decide as Hin'; try done.
    + by rewrite stamped_again.
    + exfalso. apply Hin'. by right.
    + exfalso. apply Hin'. rewrite Ho. by left.
    + exfalso. apply Hin'. by right.
    + exfalso. apply elem_of_cons in Hin' as [?|?]; [congruence|by apply Hin].
Qed.

End Stamping.

(** ** [AddTraceAnnotation] on a slice *)
Section Stamped.
Import unstructured annotations.
Variable TraceAnnotationKey : string.
Variable GenerateEmbeddableSpanContext : ot.Span → string + error.

Local Abbreviation AddTraceAnnotation :=
  (tracing.AddTraceAnnotation TraceAnnotationKey GenerateEmbeddableSpanContext).

(** When the span's context encodes, [AddTraceAnnotation] returns no error,
    and every object of the slice whose map is allocated, with [metadata]
    absent or a map, ends with the annotations it had and the reserved key
    set to the encoded context: the key reads as the context, every other
    key reads as before, and an object that had no annotations has exactly
    the reserved key. The other objects of the slice may be anything. *)
Lemma AddTraceAnnotation_stamps_allocated objs span (s : tracing.Mem) ctx :
  GenerateEmbeddableSpanContext span = inl ctx →
  (AddTraceAnnotation objs span s).1 = None
  ∧ ∀ o, o ∈ objs → stampable (tracing.heap s) o →
      ∃ a, GetAnnotations o (tracing.heap (AddTraceAnnotation objs span s).2) = Some a
           ∧ a = stamped TraceAnnotationKey ctx (GetAnnotations o (tracing.heap s))
           ∧ a !! TraceAnnotationKey = Some ctx
           ∧ (∀ k, k ≠ TraceAnnotationKey →
                a !! k = default ∅ (GetAnnotations o (tracing.heap s)) !! k)
           ∧ (GetAnnotations o (tracing.heap s) = None →
                a = {[ TraceAnnotationKey := ctx ]}).
Proof.
  intros Henc.
  unfold tracing.AddTraceAnnotation, tracing.encode, tracing.onHeap, bind, ret.
  rewrite Henc. simpl.
  destruct (forRange objs (tracing.stamp TraceAnnotationKey ctx) (tracing.heap s))
    as [[] h'] eqn:Hloop. simpl.
  split; [done|]. intros o Ho (l & top & Hobj & Hl & Hset).
  destruct (forRange_stamp TraceAnnotationKey ctx objs (tracing.heap s) l top Hl Hset)
    as (top' & Hl' & _ & Hann).
  rewrite Hloop in Hl'. simpl in Hl'.
  rewrite decide_True in Hann
    by (rewrite <- Hobj; apply list_elem_of_fmap; by exists o).
  rewrite (GetAnnotations_at o h' l top' Hobj Hl'), Hann.
  rewrite (GetAnnotations_at o (tracing.heap s) l top Hobj Hl).
  eexists. split; [done|]. split; [done|]. unfold stamped. split_and!.
  - apply lookup_insert_eq.
  - intros k Hk. by rewrite lookup_insert_ne.
  - intros ->. simpl. apply insert_empty.
Qed.

(** An [Unstructured] whose [Object] is nil reads no annotations, whatever
    the heap holds. *)
Lemma GetAnnotations_zero (h : Heap) : GetAnnotations zero h = None.
Proof. reflexivity. Qed.

End Stamped.

Lemma encode_failure_stamps_nothing_witness :
  fixtures.cannotEncode 0 = inr fixtures.boom
  ∧ tracing.AddTraceAnnotation fixtures.traceKey fixtures.cannotEncode
      [fixtures.annotated; fixtures.bare] 0
      {| tracing.heap := fixtures.twoObjects; tracing.encodeCalls := 0 |}
    = (Some fixtures.boom,
       {| tracing.heap := fixtures.twoObjects; tracing.encodeCalls := 1 |}).
Proof.
  split; [reflexivity|].
  apply (proj1 (encode_failure_stamps_nothing fixtures.traceKey
                  fixtures.cannotEncode [fixtures.annotated; fixtures.bare] 0
                  {| tracing.heap := fixtures.twoObjects;
                     tracing.encodeCalls := 0 |})).
  reflexivity.
Defined.

(** An object with an annotation and an object with none, stamped together. *)
Example stamps_two_objects :
  let out := tracing.AddTraceAnnotation fixtures.traceKey fixtures.encodes
               [fixtures.annotated; fixtures.bare] 0
               {| tracing.heap := fixtures.twoObjects; tracing.encodeCalls := 0 |} in
  out.1 = None
  ∧ unstructured.GetAnnotations fixtures.annotated (tracing.heap out.2)
    = Some {[ "owner" := "alice"; "trace" := "ctx" ]}
  ∧ unstructured.GetAnnotations fixtures.bare (tracing.heap out.2)
    = Some {[ "trace" := "ctx" ]}.
Proof. vm_compute. done. Qed.

(** [Create] against a client that fails with "conflict": the caller gets
    "conflict", the span has the error tag and a log entry holding the error,
    and it is finished. *)
Example create_conflict :
  tracing.tracingClient_Create
    (fixtures.wrapping (Some (errors.New "conflict")) None)
    fixtures.background fixtures.machine [] fixtures.fresh_
  = ((fixtures.machine, Some (errors.New "conflict")),
     {| tracing.tracer :=
          {| ot.spans :=
               [{| ot.OperationName := "k8s.Create";
                   ot.ParentID := None;
                   ot.Tags := [{| ot.Key := "objectKey";
                                  ot.Value := ot.TString "ns1/name1" |};
                               {| ot.Key := "error"; ot.Value := ot.TBool true |}];
                   ot.Logs := [[otlog.Error (errors.New "conflict")]] |}];
             ot.finished := [0] |};
        tracing.world := 1 |}).
Proof. reflexivity. Qed.

(** C4 fails on the zero value. A slice holding [unstructured.Unstructured{}]
    and a span whose context encodes: [AddTraceAnnotation] returns no error,
    the object still has no annotations, and the stamp sits in a map the loop
    allocated for its own copy of the object, which the slice does not point
    to. *)
Theorem zero_value_object_is_not_stamped :
  let out := tracing.AddTraceAnnotation fixtures.traceKey fixtures.encodes
               [annotations.zero] 0
               {| tracing.heap := ∅; tracing.encodeCalls := 0 |} in
  out.1 = None
  ∧ unstructured.GetAnnotations annotations.zero (tracing.heap out.2) = None
  ∧ unstructured.GetAnnotations {| unstructured.Object := Some 1%positive |}
      (tracing.heap out.2)
    = Some {[ "trace" := "ctx" ]}.
Proof. vm_compute. done. Qed.

(** * Further properties of the decorator *)
Section ObjectTags.

Lemma filter_objectTags_kind obj :
  filter (λ t, ot.Key t = "objectKind") (spans.objectTags obj)
  = if schema.Empty (runtime.GroupVersionKind obj) then []
    else [spans.kindTag (runtime.GroupVersionKind obj)].
Proof.
  unfold spans.objectTags.
  by destruct (schema.Empty _), (runtime.objectMeta obj).
Qed.

Lemma filter_objectTags_key obj :
  filter (λ t, ot.Key t = "objectKey") (spans.objectTags obj)
  = match runtime.objectMeta obj with
    | Some m => [{| ot.Key := "objectKey";
                    ot.Value := ot.TString (runtime.GetNamespace m +:+ "/"
                                            +:+ runtime.GetName m) |}]
    | None => []
    end.
Proof.
  unfold spans.objectTags.
  by destruct (schema.Empty _), (runtime.objectMeta obj).
Qed.

Lemma filter_objectTags_error obj :
  filter (λ t, ot.Key t = "error") (spans.objectTags obj) = [].
Proof.
  unfold spans.objectTags.
  by destruct (schema.Empty _), (runtime.objectMeta obj).
Qed.

Lemma filter_identityTags_error sch call :
  filter (λ t, ot.Key t = "error") (spans.identityTags sch call) = [].
Proof.
  unfold spans.identityTags. destruct (tracing.viaScheme call).
  - by apply filter_kindTags_other.
  - apply filter_objectTags_error.
Qed.

Lemma startTags_concrete call :
  tracing.viaScheme call = false → spans.startTags call = [].
Proof. by destruct call. Qed.

End ObjectTags.

Section Decorated.
Context {W : Type}.
Implicit Types (c : tracing.tracingClient W) (ctx : ot.Context).
Implicit Types (call : tracing.Call) (s : tracing.State W).

(** X1. [Create], [Delete], [Update], [Patch] and the two status operations
    read the tags off the object itself, whatever the scheme: an [objectKind]
    tag with the object's kind when the object declares one (none when its
    kind is empty), and an [objectKey] tag [namespace/name] when the object
    has metadata (none when it has not). *)
Theorem concrete_object_tags c ctx call s :
  tracing.viaScheme call = false →
  let sp := length (ot.spans (tracing.tracer s)) in
  let obj := tracing.subject call in
  ∃ d, ot.spans (tracing.tracer (tracing.invoke c ctx call s).2) !! sp = Some d
       ∧ spans.tagsWithKey "objectKind" d
         = (if schema.Empty (runtime.GroupVersionKind obj) then []
            else [ot.TString (schema.String (runtime.GroupVersionKind obj))])
       ∧ spans.tagsWithKey "objectKey" d
         = match runtime.objectMeta obj with
           | Some m => [ot.TString (runtime.GetNamespace m +:+ "/"
                                    +:+ runtime.GetName m)]
           | None => []
           end.
Proof.
  intros Hvia sp obj. rewrite invoke_spec. simpl.
  eexists. split; [by apply list_lookup_middle|].
  rewrite !tagsWithKey_spanOf, startTags_concrete by done.
  unfold spans.identityTags. rewrite Hvia.
  rewrite filter_objectTags_kind, filter_objectTags_key.
  rewrite !filter_errorTags_other by done. rewrite !app_nil_r. simpl.
  subst obj. split.
  - by destruct (schema.Empty _).
  - by destruct (runtime.objectMeta _).
Qed.

(** X2. The span of any operation carries the tag [error = true] exactly
    when the wrapped client returned an error, and the errors logged on it
    are that error and nothing else. *)
Theorem error_recorded_iff_delegate_fails c ctx call s :
  let sp := length (ot.spans (tracing.tracer s)) in
  let r := tracing.delegate (tracing.Client c) (ot.ContextWithSpan ctx sp) call
             (tracing.world s) in
  ∃ d, ot.spans (tracing.tracer (tracing.invoke c ctx call s).2) !! sp = Some d
       ∧ spans.tagsWithKey "error" d
         = match r.1.2 with
           | Some _ => [ot.TBool true]
           | None => []
           end
       ∧ usage.loggedErrors d
         = match r.1.2 with
           | Some e => [e]
           | None => []
           end.
Proof.
  intros sp r. rewrite invoke_spec. simpl. fold sp. fold r.
  eexists. split; [by apply list_lookup_middle|]. split.
  - rewrite tagsWithKey_spanOf, filter_startTags_other by done.
    rewrite filter_identityTags_error. simpl. by destruct (r.1.2).
  - unfold usage.loggedErrors, spans.spanOf. simpl.
    rewrite concat_app, omap_app.
    assert (omap (λ f : string * ot.TagValue + error,
                    match f with inr e => Some e | inl _ => None end)
              (concat (spans.payloadLogs call)) = []) as ->.
    { destruct call; try done; simpl; unfold spans.patchLogs;
        by destruct (client.Data _ _). }
    by destruct (r.1.2).
Qed.

(** X3. [Patch] and the status [Patch] log the patch's data under ["patch"]
    when [patch.Data] succeeds and log no string at all when it fails; the
    other operations never log a string. *)
Theorem patch_payload_logged c ctx call s :
  let sp := length (ot.spans (tracing.tracer s)) in
  ∃ d, ot.spans (tracing.tracer (tracing.invoke c ctx call s).2) !! sp = Some d
       ∧ usage.loggedStrings d
         = match usage.patchOf call with
           | Some (patch, obj) =>
               match client.Data patch obj with
               | inl data => [("patch", data)]
               | inr _ => []
               end
           | None => []
           end.
Proof.
  intros sp. rewrite invoke_spec. simpl.
  eexists. split; [by apply list_lookup_middle|].
  unfold usage.loggedStrings, spans.spanOf. simpl.
  rewrite concat_app, omap_app.
  match goal with
  | |- context [spans.errorLogs ?e] =>
      assert (omap (λ f : string * ot.TagValue + error,
                      match f with
                      | inl (k, ot.TString v) => Some (k, v)
                      | _ => None
                      end) (concat (spans.errorLogs e)) = []) as ->
        by (by destruct e)
  end.
  rewrite app_nil_r.
  destruct call; try done; simpl; unfold spans.patchLogs;
    by destruct (client.Data _ _).
Qed.

(** X4. The span of an operation is named after it, and its parent is the
    span active in the caller's context, none when there is none. *)
Theorem span_name_and_parent c ctx call s :
  let sp := length (ot.spans (tracing.tracer s)) in
  ∃ d, ot.spans (tracing.tracer (tracing.invoke c ctx call s).2) !! sp = Some d
       ∧ ot.ParentID d = ot.activeSpan ctx
       ∧ ot.OperationName d
         = match call with
           | tracing.CallGet _ _ => "k8s.Get"
           | tracing.CallList _ _ => "k8s.List"
           | tracing.CallCreate _ _ => "k8s.Create"
           | tracing.CallDelete _ _ => "k8s.Delete"
           | tracing.CallUpdate _ _ => "k8s.Update"
           | tracing.CallPatch _ _ _ => "k8s.Patch"
           | tracing.CallDeleteAllOf _ _ => "k8s.DeleteAllOf"
           | tracing.CallStatusUpdate _ _ => "k8s.Status.Update"
           | tracing.CallStatusPatch _ _ _ => "k8s.Status.Patch"
           end.
Proof.
  intros sp. rewrite invoke_spec. simpl.
  eexists. split; [by apply list_lookup_middle|]. by destruct call.
Qed.

(** X5. A tracing client without a scheme tags no kind on [Get], [List] and
    [DeleteAllOf], also when the object declares its kind; the result is the
    wrapped client's all the same. *)
Theorem nil_scheme_no_kind_tag c ctx call s :
  tracing.viaScheme call = true →
  tracing.scheme c = None →
  let sp := length (ot.spans (tracing.tracer s)) in
  let r := tracing.delegate (tracing.Client c) (ot.ContextWithSpan ctx sp) call
             (tracing.world s) in
  (tracing.invoke c ctx call s).1 = r.1
  ∧ ∃ d, ot.spans (tracing.tracer (tracing.invoke c ctx call s).2) !! sp = Some d
         ∧ spans.tagsWithKey "objectKind" d = [].
Proof.
  intros Hvia Hnil sp r. rewrite invoke_spec. simpl. split; [done|].
  eexists. split; [by apply list_lookup_middle|].
  rewrite tagsWithKey_spanOf.
  unfold spans.identityTags, spans.candidates. rewrite Hvia, Hnil.
  rewrite filter_startTags_other by done.
  by rewrite filter_errorTags_other.
Qed.

(** X6. [Get] with the key [namespace/name] and an operation on an object
    with that namespace and name leave the same [objectKey] tag. *)
Theorem objectKey_same_format c ctx call key obj s :
  tracing.viaScheme call = false →
  runtime.objectMeta (tracing.subject call)
  = Some {| runtime.GetNamespace := types.Namespace key;
            runtime.GetName := types.Name key |} →
  let sp := length (ot.spans (tracing.tracer s)) in
  ∃ d d',
    ot.spans (tracing.tracer (tracing.invoke c ctx call s).2) !! sp = Some d
    ∧ ot.spans (tracing.tracer (tracing.tracingClient_Get c ctx key obj s).2) !! sp
      = Some d'
    ∧ spans.tagsWithKey "objectKey" d = spans.tagsWithKey "objectKey" d'.
Proof.
  intros Hvia Hmeta sp.
  change (tracing.tracingClient_Get c ctx key obj)
    with (tracing.invoke c ctx (tracing.CallGet key obj)).
  rewrite !invoke_spec. simpl.
  eexists _, _. split; [by apply list_lookup_middle|].
  split; [by apply list_lookup_middle|].
  rewrite !tagsWithKey_spanOf, startTags_concrete by done.
  unfold spans.identityTags. rewrite Hvia. simpl tracing.viaScheme. cbv iota.
  rewrite filter_objectTags_key, Hmeta.
  rewrite filter_kindTags_other by done.
  rewrite !filter_errorTags_other by done. done.
Qed.

End Decorated.

Lemma concrete_object_tags_witness :
  tracing.viaScheme (tracing.CallUpdate samples.deployment []) = false
  ∧ ∃ d, ot.spans (tracing.tracer
           (tracing.invoke (fixtures.wrapping None (Some fixtures.knowsNothing))
              fixtures.background (tracing.CallUpdate samples.deployment [])
              fixtures.fresh_).2) !! 0 = Some d
         ∧ spans.tagsWithKey "objectKind" d = [ot.TString "apps/v1, Kind=Deployment"]
         ∧ spans.tagsWithKey "objectKey" d = [ot.TString "ns1/name1"].
Proof.
  split; [reflexivity|].
  apply (concrete_object_tags (fixtures.wrapping None (Some fixtures.knowsNothing))
           fixtures.background (tracing.CallUpdate samples.deployment [])
           fixtures.fresh_).
  reflexivity.
Defined.

Lemma nil_scheme_no_kind_tag_witness :
  tracing.viaScheme (tracing.CallGet fixtures.ns1name1 samples.deployment) = true
  ∧ tracing.scheme (fixtures.wrapping None None) = None
  ∧ (tracing.invoke (fixtures.wrapping None None) fixtures.background
       (tracing.CallGet fixtures.ns1name1 samples.deployment) fixtures.fresh_).1
    = (samples.deployment, None)
  ∧ ∃ d, ot.spans (tracing.tracer
           (tracing.invoke (fixtures.wrapping None None) fixtures.background
              (tracing.CallGet fixtures.ns1name1 samples.deployment)
              fixtures.fresh_).2) !! 0 = Some d
         ∧ spans.tagsWithKey "objectKind" d = [].
Proof.
  split; [reflexivity|]. split; [reflexivity|].
  apply (nil_scheme_no_kind_tag (fixtures.wrapping None None) fixtures.background
           (tracing.CallGet fixtures.ns1name1 samples.deployment) fixtures.fresh_);
    reflexivity.
Defined.

Lemma objectKey_same_format_witness :
  tracing.viaScheme (tracing.CallCreate fixtures.machine []) = false
  ∧ runtime.objectMeta fixtures.machine
    = Some {| runtime.GetNamespace := types.Namespace fixtures.ns1name1;
              runtime.GetName := types.Name fixtures.ns1name1 |}
  ∧ ∃ d d',
      ot.spans (tracing.tracer
        (tracing.invoke (fixtures.wrapping None None) fixtures.background
           (tracing.CallCreate fixtures.machine []) fixtures.fresh_).2) !! 0 = Some d
      ∧ ot.spans (tracing.tracer
          (tracing.tracingClient_Get (fixtures.wrapping None None)
             fixtures.background fixtures.ns1name1 fixtures.machine
             fixtures.fresh_).2) !! 0 = Some d'
      ∧ spans.tagsWithKey "objectKey" d = spans.tagsWithKey "objectKey" d'.
Proof.
  split; [reflexivity|]. split; [reflexivity|].
  apply (objectKey_same_format (fixtures.wrapping None None) fixtures.background
           (tracing.CallCreate fixtures.machine []) fixtures.ns1name1
           fixtures.machine fixtures.fresh_); reflexivity.
Defined.

(** ** Calls in sequence, and the clients behind [NewRuntimeClient] *)
Section Sequences.
Context {W : Type}.
Implicit Types (c : tracing.tracingClient W) (ctx : ot.Context).
Implicit Types (s : tracing.State W).

Lemma invokeEach_cons c ctx call calls s :
  usage.invokeEach c ctx (call :: calls) s
  = usage.invokeEach c ctx calls (tracing.invoke c ctx call s).2.
Proof.
  unfold usage.invokeEach. simpl. unfold bind, ret.
  by destruct (tracing.invoke c ctx call s).
Qed.

(** X7. Calls made one after the other leave no span open: from a tracer
    whose spans are all finished, any sequence of operations, whatever their
    outcomes, ends in a tracer whose spans are all finished, with one new
    span per call, in the order of the calls and named after them. *)
Theorem calls_in_sequence_leave_no_open_span c ctx calls : ∀ s,
  usage.allFinished (tracing.tracer s) →
  let s' := (usage.invokeEach c ctx calls s).2 in
  usage.allFinished (tracing.tracer s')
  ∧ ∃ new, ot.spans (tracing.tracer s') = ot.spans (tracing.tracer s) ++ new
           ∧ ot.OperationName <$> new = spans.operationName <$> calls.
Proof.
  induction calls as [|call calls IH]; intros s Hfin.
  - simpl. split; [done|]. exists []. by rewrite app_nil_r.
  - intros s'. subst s'. rewrite invokeEach_cons.
    set (s1 := (tracing.invoke c ctx call s).2).
    assert (Hs1 : ot.spans (tracing.tracer s1)
                  = ot.spans (tracing.tracer s)
                    ++ [spans.spanOf (tracing.scheme c) ctx call
                          (tracing.delegate (tracing.Client c)
                             (ot.ContextWithSpan ctx
                                (length (ot.spans (tracing.tracer s))))
                             call (tracing.world s)).1.2]
                  ∧ ot.finished (tracing.tracer s1)
                    = ot.finished (tracing.tracer s)
                      ++ [length (ot.spans (tracing.tracer s))]).
    { subst s1. by rewrite invoke_spec. }
    destruct Hs1 as [Hspans Hfinished].
    assert (Hfin1 : usage.allFinished (tracing.tracer s1)).
    { unfold usage.allFinished in *.
      rewrite Hfinished, Hspans, Hfin, length_app. simpl.
      by rewrite Nat.add_1_r, seq_S. }
    destruct (IH s1 Hfin1) as [Hall (new & Hnew & Hnames)].
    split; [done|]. eexists (_ :: new). split.
    + rewrite Hnew, Hspans, <- app_assoc. done.
    + by rewrite !fmap_cons, Hnames.
Qed.

(** X8. The tracing client made by [NewRuntimeClient] sends every write,
    every status write and the reads of unstructured objects to the client
    made by [client.New], and every other read to the cache. *)
Theorem NewRuntimeClient_routes
    (client_New : tracing.Config → client.Options → client.Client.t W + error)
    (cache : client.Reader.t W) (config : tracing.Config)
    (options : client.Options) live tc ctx call s :
  client_New config options = inl live →
  tracing.NewRuntimeClient client_New cache config options = inl tc →
  let ctx' := ot.ContextWithSpan ctx (length (ot.spans (tracing.tracer s))) in
  (usage.readsLive call = true →
     (tracing.invoke tc ctx call s).1
     = (tracing.delegate live ctx' call (tracing.world s)).1)
  ∧ (usage.readsLive call = false →
       ∃ m, usage.read cache ctx' call = Some m
            ∧ (tracing.invoke tc ctx call s).1 = (m (tracing.world s)).1).
Proof.
  intros Hnew. unfold tracing.NewRuntimeClient. rewrite Hnew. intros [= <-].
  rewrite invoke_spec. simpl. split.
  - intros Hlive. destruct call; simpl in *; try done.
    + unfold client.DelegatingReader_Get. simpl. by rewrite Hlive.
    + unfold client.DelegatingReader_List. simpl. by rewrite Hlive.
  - intros Hcache. destruct call; simpl in *; try done.
    + eexists. split; [done|].
      unfold client.DelegatingReader_Get. simpl. by rewrite Hcache.
    + eexists. split; [done|].
      unfold client.DelegatingReader_List. simpl. by rewrite Hcache.
Qed.

End Sequences.

Lemma calls_in_sequence_leave_no_open_span_witness :
  usage.allFinished (tracing.tracer fixtures.fresh_)
  ∧ usage.allFinished (tracing.tracer
      (usage.invokeEach (fixtures.wrapping (Some fixtures.boom) None)
         fixtures.background
         [tracing.CallCreate fixtures.machine [];
          tracing.CallStatusPatch fixtures.machine samples.mergePatch []]
         fixtures.fresh_).2)
  ∧ ∃ new, ot.spans (tracing.tracer
             (usage.invokeEach (fixtures.wrapping (Some fixtures.boom) None)
                fixtures.background
                [tracing.CallCreate fixtures.machine [];
                 tracing.CallStatusPatch fixtures.machine samples.mergePatch []]
                fixtures.fresh_).2) = [] ++ new
           ∧ ot.OperationName <$> new = ["k8s.Create"; "k8s.Status.Patch"].
Proof.
  split; [reflexivity|].
  apply (calls_in_sequence_leave_no_open_span
           (fixtures.wrapping (Some fixtures.boom) None) fixtures.background
           [tracing.CallCreate fixtures.machine [];
            tracing.CallStatusPatch fixtures.machine samples.mergePatch []]
           fixtures.fresh_).
  reflexivity.
Defined.

Lemma NewRuntimeClient_routes_witness :
  samples.newLive "kubeconfig" {| client.Scheme := None |} = inl samples.live
  ∧ (∃ tc, tracing.NewRuntimeClient samples.newLive fixtures.cacheReader
             "kubeconfig" {| client.Scheme := None |} = inl tc
           ∧ (tracing.invoke tc fixtures.background
                (tracing.CallCreate fixtures.machine []) fixtures.fresh_).1
             = (fixtures.machine, Some fixtures.boom)
           ∧ (tracing.invoke tc fixtures.background
                (tracing.CallGet fixtures.ns1name1 fixtures.machine)
                fixtures.fresh_).1
             = (fixtures.machine, None)).
Proof.
  split; [reflexivity|]. eexists. split; [reflexivity|].
  split.
  - apply (proj1 (NewRuntimeClient_routes samples.newLive fixtures.cacheReader
                    "kubeconfig" {| client.Scheme := None |} samples.live _
                    fixtures.background (tracing.CallCreate fixtures.machine [])
                    fixtures.fresh_ eq_refl eq_refl)).
    reflexivity.
  - destruct (proj2 (NewRuntimeClient_routes samples.newLive fixtures.cacheReader
                       "kubeconfig" {| client.Scheme := None |} samples.live _
                       fixtures.background
                       (tracing.CallGet fixtures.ns1name1 fixtures.machine)
                       fixtures.fresh_ eq_refl eq_refl) eq_refl)
      as (m & Hm & Hres).
    injection Hm as <-. exact Hres.
Defined.

(** * Further properties of [AddTraceAnnotation] *)
Section StampedMaps.
Import unstructured annotations objectmaps.
Variable TraceAnnotationKey : string.
Variable spanContext : string.

Local Abbreviation stamp := (tracing.stamp TraceAnnotationKey spanContext).
Local Abbreviation stampMap := (objectmaps.stampMap TraceAnnotationKey spanContext).

Lemma SetNestedStringMap_metadata (top : gmap string Value) (a : gmap string string) :
  SetNestedStringMap top a "metadata" ["annotations"]
  = if decide (settable top)
    then Some (<["metadata" :=
                   VMap (<["annotations" := VMap (VString <$> a)]> (metadataOf top))]>
                 top)
    else None.
Proof.
  unfold SetNestedStringMap, metadataOf. simpl.
  destruct (decide (settable top)) as [Hset|Hset]; unfold settable in Hset;
    destruct (top !! "metadata") as [[s|md|r]|]; try done; by destruct Hset.
Qed.

Lemma metadataOf_set (top md : gmap string Value) :
  metadataOf (<["metadata" := VMap md]> top) = md.
Proof. unfold metadataOf. by rewrite lookup_insert_eq. Qed.

Lemma stampMap_settable top : settable top → settable (stampMap top).
Proof.
  intros Hset. unfold objectmaps.stampMap. rewrite decide_True by done.
  apply settable_set.
Qed.

Lemma stampMap_annotations top :
  settable top →
  annotationsOf (stampMap top)
  = Some (stamped TraceAnnotationKey spanContext (annotationsOf top)).
Proof.
  intros Hset. unfold objectmaps.stampMap. rewrite decide_True by done.
  apply annotationsOf_set.
Qed.

Lemma stampMap_again top : stampMap (stampMap top) = stampMap top.
Proof.
  destruct (decide (settable top)) as [Hset|Hset].
  - unfold objectmaps.stampMap at 1.
    rewrite decide_True by by apply stampMap_settable.
    rewrite stampMap_annotations by done.
    unfold objectmaps.stampMap. rewrite decide_True by done.
    by rewrite metadataOf_set, !insert_insert_eq, stamped_again.
  - assert (stampMap top = top) as Hsame
      by (unfold objectmaps.stampMap; by rewrite decide_False).
    by rewrite !Hsame.
Qed.

(** One iteration, on every allocated map: the map the iteration's object
    points to becomes [stampMap] of itself, every other map is left as it
    is. *)
Lemma stamp_map o (h : Heap) l top :
  h !! l = Some top →
  (stamp o h).2 !! l
  = Some (if decide (Object o = Some l) then stampMap top else top).
Proof.
  intros Hl.
  unfold tracing.stamp, bind, gets, ret, SetAnnotations, setNestedMap.
  destruct (decide (Object o = Some l)) as [Ho|Ho].
  - rewrite (GetAnnotations_at o h l top Ho Hl), Ho, Hl. simpl.
    rewrite SetNestedStringMap_metadata. unfold objectmaps.stampMap.
    replace (<[TraceAnnotationKey:=spanContext]>
               match annotationsOf top with
               | Some a => a
               | None => ∅
               end)
      with (stamped TraceAnnotationKey spanContext (annotationsOf top))
      by (unfold stamped; by destruct (annotationsOf top)).
    destruct (decide (settable top)); simpl; [by rewrite lookup_insert_eq|done].
  - destruct (Object o) as [lo|].
    + assert (lo ≠ l) by congruence.
      destruct (SetNestedStringMap _ _ _ _); simpl;
        [by rewrite lookup_insert_ne|done].
    + assert (fresh (dom h) ≠ l) as Hfresh.
      { intros <-. apply (is_fresh (dom h)). apply elem_of_dom. by eexists. }
      destruct (SetNestedStringMap _ _ _ _); simpl;
        by rewrite !lookup_insert_ne.
Qed.

(** The whole loop, on every allocated map. *)
Lemma forRange_stamp_map objs : ∀ (h : Heap) l top,
  h !! l = Some top →
  (forRange objs stamp h).2 !! l
  = Some (if decide (Some l ∈ Object <$> objs) then stampMap top else top).
Proof.
  induction objs as [|o objs IH]; intros h l top Hl.
  - done.
  - simpl. unfold bind.
    pose proof (stamp_map o h l top Hl) as Hl1.
    destruct (stamp o h) as [[] h1]. simpl in Hl1.
    rewrite (IH h1 l _ Hl1).
    destruct (decide (Object o = Some l)) as [Ho|Ho];
      destruct (decide (Some l ∈ Object <$> objs)) as [Hin|Hin];
      case_decide as Hin'; try done.
    + by rewrite stampMap_again.
    + exfalso. apply Hin'. by right.
    + exfalso. apply Hin'. rewrite Ho. by left.
    + exfalso. apply Hin'. by right.
    + exfalso. apply elem_of_cons in Hin' as [?|?]; [congruence|by apply Hin].
Qed.

End StampedMaps.

Section MoreAnnotation.
Import unstructured annotations objectmaps.
Variable TraceAnnotationKey : string.
Variable GenerateEmbeddableSpanContext : ot.Span → string + error.

Local Abbreviation AddTraceAnnotation :=
  (tracing.AddTraceAnnotation TraceAnnotationKey GenerateEmbeddableSpanContext).

Lemma AddTraceAnnotation_heap objs span (s : tracing.Mem) :
  tracing.heap (AddTraceAnnotation objs span s).2
  = match GenerateEmbeddableSpanContext span with
    | inl ctx => (forRange objs (tracing.stamp TraceAnnotationKey ctx)
                    (tracing.heap s)).2
    | inr _ => tracing.heap s
    end.
Proof.
  unfold tracing.AddTraceAnnotation, tracing.encode, tracing.onHeap, bind, ret.
  destruct (GenerateEmbeddableSpanContext span) as [ctx|err]; [|done]. simpl.
  by destruct (forRange objs _ (tracing.heap s)) as [[] h'].
Qed.

Lemma AddTraceAnnotation_result objs span (s : tracing.Mem) :
  (AddTraceAnnotation objs span s).1
  = match GenerateEmbeddableSpanContext span with
    | inl _ => None
    | inr err => Some err
    end.
Proof.
  unfold tracing.AddTraceAnnotation, tracing.encode, tracing.onHeap, bind, ret.
  destruct (GenerateEmbeddableSpanContext span) as [ctx|err]; [|done]. simpl.
  by destruct (forRange objs _ (tracing.heap s)) as [[] h'].
Qed.

(** Every allocated map after the call: stamped when the context encoded and
    an object of the slice points to it, as it was otherwise. *)
Lemma AddTraceAnnotation_map objs span (s : tracing.Mem) l top :
  tracing.heap s !! l = Some top →
  tracing.heap (AddTraceAnnotation objs span s).2 !! l
  = Some match GenerateEmbeddableSpanContext span with
         | inl ctx =>
             if decide (Some l ∈ Object <$> objs)
             then stampMap TraceAnnotationKey ctx top
             else top
         | inr _ => top
         end.
Proof.
  intros Hl. rewrite AddTraceAnnotation_heap.
  destruct (GenerateEmbeddableSpanContext span) as [ctx|err]; [|done].
  by apply forRange_stamp_map.
Qed.

(** X9. When the span's context encodes, every object of the slice whose map
    is allocated, with [metadata] absent or a map, reads after the call the
    reserved key as the encoded context and every other annotation as before;
    an object that had no annotations has exactly the reserved key. This holds
    whatever else the slice contains, and when several elements point to the
    same map. *)
Theorem AddTraceAnnotation_sets_key_keeps_rest objs span (s : tracing.Mem) ctx o :
  GenerateEmbeddableSpanContext span = inl ctx →
  o ∈ objs → stampable (tracing.heap s) o →
  ∃ a, GetAnnotations o (tracing.heap (AddTraceAnnotation objs span s).2) = Some a
       ∧ a !! TraceAnnotationKey = Some ctx
       ∧ (∀ k, k ≠ TraceAnnotationKey →
            a !! k = default ∅ (GetAnnotations o (tracing.heap s)) !! k)
       ∧ (GetAnnotations o (tracing.heap s) = None →
            a = {[ TraceAnnotationKey := ctx ]}).
Proof.
  intros Henc Ho (l & top & Hobj & Hl & Hset).
  pose proof (AddTraceAnnotation_map objs span s l top Hl) as Hl'.
  rewrite Henc in Hl'.
  rewrite decide_True in Hl'
    by (rewrite <- Hobj; apply list_elem_of_fmap; by exists o).
  rewrite (GetAnnotations_at o _ l _ Hobj Hl'), stampMap_annotations by done.
  rewrite (GetAnnotations_at o _ l top Hobj Hl).
  eexists. split; [done|]. unfold stamped. split_and!.
  - apply lookup_insert_eq.
  - intros k Hk. by rewrite lookup_insert_ne.
  - intros ->. apply insert_empty.
Qed.

(** X12. An object whose [metadata] is not a map is passed over in silence:
    the call returns no error, the object's map is as it was, and the object
    still reads no annotations. *)
Theorem AddTraceAnnotation_skips_unsettable objs span (s : tracing.Mem) ctx o l top :
  GenerateEmbeddableSpanContext span = inl ctx →
  o ∈ objs → Object o = Some l → tracing.heap s !! l = Some top →
  ¬ settable top →
  (AddTraceAnnotation objs span s).1 = None
  ∧ tracing.heap (AddTraceAnnotation objs span s).2 !! l = Some top
  ∧ GetAnnotations o (tracing.heap (AddTraceAnnotation objs span s).2) = None.
Proof.
  intros Henc Ho Hobj Hl Hset.
  assert (Hl' : tracing.heap (AddTraceAnnotation objs span s).2 !! l = Some top).
  { rewrite (AddTraceAnnotation_map objs span s l top Hl), Henc.
    case_decide; [|done]. unfold objectmaps.stampMap. by rewrite decide_False. }
  split; [by rewrite AddTraceAnnotation_result, Henc|]. split; [done|].
  rewrite (GetAnnotations_at o _ l top Hobj Hl').
  unfold settable in Hset. unfold annotationsOf, NestedStringMap, nestedMapNoCopy.
  simpl. by destruct (top !! "metadata") as [[?|md|?]|].
Qed.


End MoreAnnotation.

(** * Further properties of [clusterctl move] *)
Section Flags.

Lemma lastGiven_nil which start : flags.lastGiven which start [] = start.
Proof. done. Qed.

Lemma lastGiven_skip which start a args :
  which a = false →
  flags.lastGiven which start (a :: args) = flags.lastGiven which start args.
Proof.
  intros Hno. unfold flags.lastGiven.
  rewrite filter_cons_False; [done|]. by rewrite Hno.
Qed.

Lemma lastGiven_take which start a args :
  which a = true →
  flags.lastGiven which start (a :: args)
  = flags.lastGiven which (flags.given a) args.
Proof.
  intros Hyes. unfold flags.lastGiven.
  rewrite filter_cons_True by done. rewrite fmap_cons, last_cons.
  by destruct (last _).
Qed.

(** What parsing leaves in each field: the value given last to the field's
    flag, and what the field held when the flag is not given. *)
Lemma parse_fields args : ∀ mo0 mo,
  flags.parse args mo0 = Some mo →
  cmd.fromKubeconfig mo = flags.lastGiven flags.isSource (cmd.fromKubeconfig mo0) args
  ∧ cmd.namespace mo = flags.lastGiven flags.isNamespace (cmd.namespace mo0) args
  ∧ cmd.toKubeconfig mo
    = flags.lastGiven flags.isDestination (cmd.toKubeconfig mo0) args.
Proof.
  induction args as [|a args IH]; intros mo0 mo Hparse.
  - by injection Hparse as <-.
  - destruct a as [n v|sh v]; simpl in Hparse.
    + destruct (decide (n = "kubeconfig")) as [->|Hn1];
        [|destruct (decide (n = "to-kubeconfig")) as [->|Hn2];
          [|destruct (decide (n = "namespace")) as [->|Hn3]]].
      * destruct (IH _ _ Hparse) as (H1 & H2 & H3). simpl in *.
        split_and!;
          first [rewrite lastGiven_take by done
                |rewrite lastGiven_skip by done];
          done.
      * destruct (IH _ _ Hparse) as (H1 & H2 & H3). simpl in *.
        split_and!;
          first [rewrite lastGiven_take by done
                |rewrite lastGiven_skip by done];
          done.
      * destruct (IH _ _ Hparse) as (H1 & H2 & H3). simpl in *.
        split_and!;
          first [rewrite lastGiven_take by done
                |rewrite lastGiven_skip by done];
          done.
      * rewrite !bool_decide_eq_false_2 in Hparse by done. done.
    + destruct (decide (sh = "n")) as [->|Hsh].
      * destruct (IH _ _ Hparse) as (H1 & H2 & H3). simpl in *.
        split_and!;
          first [rewrite lastGiven_take by done
                |rewrite lastGiven_skip by done];
          done.
      * destruct (decide (sh = "")) as [->|Hempty]; [done|].
        rewrite !(bool_decide_eq_false_2 (_ = sh)) in Hparse by congruence. done.
Qed.

End Flags.

Section MoveCommand.
Context {W : Type}.
Variable client_New : string → M W (cmd.Client W + error).
Variable cfgFile : string.

(** X14. [runMove] returns no error in one case only: a destination is
    given, the client is constructed, and [Move], called with the three
    options, returns no error. *)
Theorem runMove_succeeds_iff (mo : cmd.moveOptions) (s : cmd.State W) :
  (cmd.runMove client_New cfgFile mo s).1 = None
  ↔ cmd.toKubeconfig mo ≠ ""
    ∧ ∃ c, (client_New cfgFile (cmd.world s)).1 = inl c
           ∧ (cmd.Move c {| cmd.FromKubeconfig := cmd.fromKubeconfig mo;
                            cmd.ToKubeconfig := cmd.toKubeconfig mo;
                            cmd.Namespace := cmd.namespace mo |}
                (client_New cfgFile (cmd.world s)).2).1 = None.
Proof.
  unfold cmd.runMove. case_bool_decide as Hdest.
  - split; [done|]. by intros [? _].
  - unfold bind, cmd.call, ret.
    destruct (client_New cfgFile (cmd.world s)) as [[c|err] w]; simpl.
    + destruct (cmd.Move c _ w) as [[err|] w'] eqn:Hmove; simpl.
      * split; [done|]. intros [_ (c' & [= <-] & Hnone)].
        rewrite Hmove in Hnone. done.
      * split; [|done]. intros _. split; [done|]. exists c.
        by rewrite Hmove.
    + split; [done|]. by intros [_ (c' & ? & _)].
Qed.

(** X15. From the command line to [Move]. After the flags are parsed into
    the options [init] set up, [runMove] fails with the missing-destination
    error, calling nothing, exactly when [--to-kubeconfig] was not given or
    was given last as the empty string; otherwise, once the client is
    constructed, [Move] gets as [ToKubeconfig] the last [--to-kubeconfig], as
    [FromKubeconfig] the last [--kubeconfig] and as [Namespace] the last
    [--namespace] or [-n], each empty when not given. *)
Theorem move_flags_reach_Move (args : list flags.Arg) (mo : cmd.moveOptions)
    (s : cmd.State W) :
  flags.parse args flags.init = Some mo →
  let options := {| cmd.FromKubeconfig := flags.lastGiven flags.isSource "" args;
                    cmd.ToKubeconfig := flags.lastGiven flags.isDestination "" args;
                    cmd.Namespace := flags.lastGiven flags.isNamespace "" args |} in
  (cmd.ToKubeconfig options = "" →
     cmd.runMove client_New cfgFile mo s
     = (Some (errors.New
          "please specify a target cluster using the --to-kubeconfig flag"), s))
  ∧ (cmd.ToKubeconfig options ≠ "" →
       ∀ c w, client_New cfgFile (cmd.world s) = (inl c, w) →
         cmd.runMove client_New cfgFile mo s
         = ((cmd.Move c options w).1,
            {| cmd.world := (cmd.Move c options w).2;
               cmd.calls := cmd.calls s ++ [cmd.CalledNew cfgFile;
                                            cmd.CalledMove options] |})).
Proof.
  intros Hparse options.
  destruct (parse_fields args _ _ Hparse) as (Hfrom & Hns & Hto).
  change (cmd.fromKubeconfig flags.init) with "" in Hfrom.
  change (cmd.namespace flags.init) with "" in Hns.
  change (cmd.toKubeconfig flags.init) with "" in Hto.
  subst options. simpl. unfold cmd.runMove. rewrite Hfrom, Hns, Hto. split.
  - intros Hnone. rewrite bool_decide_eq_true_2 by done. by destruct s.
  - intros Hsome c w Hnew. rewrite bool_decide_eq_false_2 by done.
    unfold bind, cmd.call, ret. rewrite Hnew. simpl.
    destruct (cmd.Move c _ w) as [[err|] w']; simpl; by rewrite <- app_assoc.
Qed.

End MoveCommand.

Lemma move_flags_reach_Move_witness :
  flags.parse [flags.Long "to-kubeconfig" "old.yaml"; flags.Short "n" "team";
               flags.Long "to-kubeconfig" "target.yaml"] flags.init
  = Some {| cmd.fromKubeconfig := ""; cmd.namespace := "team";
            cmd.toKubeconfig := "target.yaml" |}
  ∧ flags.parse [flags.Long "kubeconfig" "source.yaml"] flags.init
    = Some {| cmd.fromKubeconfig := "source.yaml"; cmd.namespace := "";
              cmd.toKubeconfig := "" |}
  ∧ cmd.runMove samples.newMoves "clusterctl.yaml"
      {| cmd.fromKubeconfig := "source.yaml"; cmd.namespace := "";
         cmd.toKubeconfig := "" |} fixtures.idle
    = (Some (errors.New
         "please specify a target cluster using the --to-kubeconfig flag"),
       fixtures.idle)
  ∧ cmd.runMove samples.newMoves "clusterctl.yaml"
      {| cmd.fromKubeconfig := ""; cmd.namespace := "team";
         cmd.toKubeconfig := "target.yaml" |} fixtures.idle
    = (None,
       {| cmd.world := 2;
          cmd.calls := [cmd.CalledNew "clusterctl.yaml";
                        cmd.CalledMove {| cmd.FromKubeconfig := "";
                                          cmd.ToKubeconfig := "target.yaml";
                                          cmd.Namespace := "team" |}] |}).
Proof.
  split; [reflexivity|]. split; [reflexivity|]. split.
  - apply (proj1 (move_flags_reach_Move samples.newMoves "clusterctl.yaml"
                    [flags.Long "kubeconfig" "source.yaml"] _ fixtures.idle
                    eq_refl)).
    reflexivity.
  - apply (proj2 (move_flags_reach_Move samples.newMoves "clusterctl.yaml"
                    [flags.Long "to-kubeconfig" "old.yaml"; flags.Short "n" "team";
                     flags.Long "to-kubeconfig" "target.yaml"] _ fixtures.idle
                    eq_refl) ltac:(discriminate) samples.moveSucceeds 1 eq_refl).
Defined.

Lemma runMove_succeeds_iff_witness :
  cmd.toKubeconfig fixtures.withDestination ≠ ""
  ∧ (cmd.runMove samples.newMoves "clusterctl.yaml" fixtures.withDestination
       fixtures.idle).1 = None
  ∧ (cmd.runMove fixtures.newSucceeds "clusterctl.yaml" fixtures.withDestination
       fixtures.idle).1 ≠ None.
Proof.
  split; [discriminate|]. split.
  - apply (proj2 (runMove_succeeds_iff samples.newMoves "clusterctl.yaml"
                    fixtures.withDestination fixtures.idle)).
    split; [discriminate|]. by exists samples.moveSucceeds.
  - intros Hnone.
    apply (proj1 (runMove_succeeds_iff fixtures.newSucceeds "clusterctl.yaml"
                    fixtures.withDestination fixtures.idle)) in Hnone
      as [_ (c & [= <-] & Hmove)].
    discriminate Hmove.
Defined.

Lemma AddTraceAnnotation_sets_key_keeps_rest_witness :
  fixtures.encodes 0 = inl "ctx"
  ∧ fixtures.annotated ∈ [annotations.zero; fixtures.annotated]
  ∧ annotations.stampable fixtures.twoObjects fixtures.annotated
  ∧ ∃ a, unstructured.GetAnnotations fixtures.annotated
           (tracing.heap
              (tracing.AddTraceAnnotation fixtures.traceKey fixtures.encodes
                 [annotations.zero; fixtures.annotated] 0
                 {| tracing.heap := fixtures.twoObjects;
                    tracing.encodeCalls := 0 |}).2) = Some a
         ∧ a !! fixtures.traceKey = Some "ctx"
         ∧ a !! "owner" = Some "alice".
Proof.
  assert (Hin : fixtures.annotated ∈ [annotations.zero; fixtures.annotated])
    by (right; left).
  assert (Hok : annotations.stampable fixtures.twoObjects fixtures.annotated).
  { eexists 1%positive, _. split; [reflexivity|]. split; [reflexivity|].
    vm_compute. exact I. }
  split; [reflexivity|]. split; [exact Hin|]. split; [exact Hok|].
  destruct (AddTraceAnnotation_sets_key_keeps_rest fixtures.traceKey
              fixtures.encodes [annotations.zero; fixtures.annotated] 0
              {| tracing.heap := fixtures.twoObjects; tracing.encodeCalls := 0 |}
              "ctx" fixtures.annotated eq_refl Hin Hok)
    as (a & Ha & Hkey & Hother & _).
  exists a. split; [exact Ha|]. split; [exact Hkey|].
  rewrite Hother by discriminate. reflexivity.
Defined.

Lemma AddTraceAnnotation_skips_unsettable_witness :
  fixtures.encodes 0 = inl "ctx"
  ∧ samples.threeObjects !! 3%positive
    = Some {[ "metadata" := unstructured.VString "oops" ]}
  ∧ ¬ annotations.settable {[ "metadata" := unstructured.VString "oops" ]}
  ∧ (tracing.AddTraceAnnotation fixtures.traceKey fixtures.encodes
       [samples.broken; fixtures.bare] 0
       {| tracing.heap := samples.threeObjects; tracing.encodeCalls := 0 |}).1 = None
  ∧ unstructured.GetAnnotations samples.broken
      (tracing.heap
         (tracing.AddTraceAnnotation fixtures.traceKey fixtures.encodes
            [samples.broken; fixtures.bare] 0
            {| tracing.heap := samples.threeObjects;
               tracing.encodeCalls := 0 |}).2) = None.
Proof.
  assert (Hbad : ¬ annotations.settable
                     {[ "metadata" := unstructured.VString "oops" ]})
    by (vm_compute; exact (λ x, x)).
  split; [reflexivity|]. split; [reflexivity|]. split; [exact Hbad|].
  destruct (AddTraceAnnotation_skips_unsettable fixtures.traceKey fixtures.encodes
              [samples.broken; fixtures.bare] 0
              {| tracing.heap := samples.threeObjects; tracing.encodeCalls := 0 |}
              "ctx" samples.broken 3%positive _ eq_refl
              ltac:(left) eq_refl eq_refl Hbad) as (Hres & _ & Hann).
  split; [exact Hres|exact Hann].
Defined.


(** * The wrapped constructor, and the order of a slice *)
Section Wrapped.
Context {W : Type}.

(** X16. The client made by the function [WrapRuntimeClient] returns, for
    every operation, what the upstream client returns, and finds the kind for
    [Get], [List] and [DeleteAllOf] in the scheme of the options the function
    was called with: the span's one [objectKind] tag is the last kind that
    scheme yields, and there is none when it yields no kind or the options
    have no scheme. *)
Theorem WrapRuntimeClient_transparent
    (upstreamNew : tracing.NewClientFunc (client.Client.t W))
    (cache : client.Reader.t W) (config : tracing.Config)
    (options : client.Options) upstream tc ctx call (s : tracing.State W) :
  upstreamNew cache config options = inl upstream →
  tracing.WrapRuntimeClient upstreamNew cache config options = inl tc →
  let sp := length (ot.spans (tracing.tracer s)) in
  (tracing.invoke tc ctx call s).1
  = (tracing.delegate upstream (ot.ContextWithSpan ctx sp) call (tracing.world s)).1
  ∧ (tracing.viaScheme call = true →
       ∃ d, ot.spans (tracing.tracer (tracing.invoke tc ctx call s).2) !! sp = Some d
            ∧ spans.tagsWithKey "objectKind" d
              = match client.Scheme options with
                | Some sch =>
                    match last (runtime.ObjectKinds sch (tracing.subject call)).1.1 with
                    | Some gvk => [ot.TString (schema.String gvk)]
                    | None => []
                    end
                | None => []
                end).
Proof.
  intros Hup. unfold tracing.WrapRuntimeClient. rewrite Hup. intros [= <-].
  rewrite invoke_spec. simpl. split; [done|]. intros Hvia.
  eexists. split; [by apply list_lookup_middle|].
  rewrite tagsWithKey_spanOf.
  unfold spans.identityTags, spans.candidates. rewrite Hvia. simpl.
  rewrite filter_startTags_other by done.
  rewrite filter_errorTags_other by done.
  rewrite filter_kindTags_same, app_nil_r.
  destruct (client.Scheme options); [|done].
  by destruct (last _).
Qed.

End Wrapped.

Lemma WrapRuntimeClient_transparent_witness :
  (∃ tc, tracing.WrapRuntimeClient (λ _ _ _, inl samples.live) fixtures.cacheReader
           "kubeconfig" {| client.Scheme := Some fixtures.knowsMachines |} = inl tc
         ∧ (tracing.invoke tc fixtures.background
              (tracing.CallList fixtures.machine []) fixtures.fresh_).1
           = (fixtures.machine, Some fixtures.boom)
         ∧ ∃ d, ot.spans (tracing.tracer
                  (tracing.invoke tc fixtures.background
                     (tracing.CallList fixtures.machine []) fixtures.fresh_).2)
                  !! 0 = Some d
                ∧ spans.tagsWithKey "objectKind" d
                  = [ot.TString "cluster.x-k8s.io/v1alpha2, Kind=Machine"]).
Proof.
  eexists. split; [reflexivity|].
  destruct (WrapRuntimeClient_transparent (λ _ _ _, inl samples.live)
              fixtures.cacheReader "kubeconfig"
              {| client.Scheme := Some fixtures.knowsMachines |} samples.live _
              fixtures.background (tracing.CallList fixtures.machine [])
              fixtures.fresh_ eq_refl eq_refl) as [Hres Htags].
  split; [exact Hres|]. exact (Htags eq_refl).
Defined.

Section SliceOrder.
Import unstructured.
Variable TraceAnnotationKey : string.
Variable GenerateEmbeddableSpanContext : ot.Span → string + error.

Local Abbreviation AddTraceAnnotation :=
  (tracing.AddTraceAnnotation TraceAnnotationKey GenerateEmbeddableSpanContext).

(** X17. Neither the order of the slice nor repeats in it matter: two slices
    whose elements point to the same maps leave every object map in the same
    state. *)
Theorem AddTraceAnnotation_order_free objs objs' span (s : tracing.Mem) l top :
  (∀ p, p ∈ Object <$> objs ↔ p ∈ Object <$> objs') →
  tracing.heap s !! l = Some top →
  tracing.heap (AddTraceAnnotation objs span s).2 !! l
  = tracing.heap (AddTraceAnnotation objs' span s).2 !! l.
Proof.
  intros Hsame Hl.
  rewrite !(AddTraceAnnotation_map _ _ _ _ _ l top Hl).
  destruct (GenerateEmbeddableSpanContext span); [|done].
  destruct (decide (Some l ∈ Object <$> objs)) as [Hin|Hin];
    destruct (decide (Some l ∈ Object <$> objs')) as [Hin'|Hin']; try done.
  - by apply Hsame in Hin.
  - by apply Hsame in Hin'.
Qed.

End SliceOrder.

Lemma AddTraceAnnotation_order_free_witness :
  (∀ p, p ∈ unstructured.Object <$> [fixtures.annotated; fixtures.bare]
        ↔ p ∈ unstructured.Object
              <$> [fixtures.bare; fixtures.annotated; fixtures.bare])
  ∧ fixtures.twoObjects !! 1%positive
    = Some {[ "metadata" :=
                unstructured.VMap
                  {[ "annotations" :=
                       unstructured.VMap {[ "owner" := unstructured.VString "alice" ]};
                     "name" := unstructured.VString "m1" ]} ]}
  ∧ tracing.heap
      (tracing.AddTraceAnnotation fixtures.traceKey fixtures.encodes
         [fixtures.annotated; fixtures.bare] 0
         {| tracing.heap := fixtures.twoObjects; tracing.encodeCalls := 0 |}).2
    !! 1%positive
    = tracing.heap
        (tracing.AddTraceAnnotation fixtures.traceKey fixtures.encodes
           [fixtures.bare; fixtures.annotated; fixtures.bare] 0
           {| tracing.heap := fixtures.twoObjects; tracing.encodeCalls := 0 |}).2
      !! 1%positive.
Proof.
  assert (Hsame : ∀ p,
    p ∈ unstructured.Object <$> [fixtures.annotated; fixtures.bare]
    ↔ p ∈ unstructured.Object
          <$> [fixtures.bare; fixtures.annotated; fixtures.bare]).
  { intros p. simpl. rewrite !elem_of_cons. rewrite elem_of_nil. tauto. }
  split; [exact Hsame|]. split; [reflexivity|].
  apply (AddTraceAnnotation_order_free fixtures.traceKey fixtures.encodes
           [fixtures.annotated; fixtures.bare]
           [fixtures.bare; fixtures.annotated; fixtures.bare] 0
           {| tracing.heap := fixtures.twoObjects; tracing.encodeCalls := 0 |}
           1%positive _ Hsame eq_refl).
Defined.
